(** * Medical note templates: a shallow embedding of [medical_note_template.py]

    The development follows the Python module top to bottom: the values a
    field can hold, the base class [MedicalNoteTemplate] (field store,
    validation, section helpers), the three concrete note classes with their
    renderers, and the factory [create_template].  Theorems about the
    embedding come after the definitions. *)

From Stdlib Require Import Ascii String ZArith.
From stdpp Require Import gmap strings list.

(** ** The Python runtime

    The module relies on a few built-ins whose behaviour is fixed by the
    interpreter and not by the module: the clock type and its two
    formatters, [repr] on strings (used when a list is interpolated into an
    f-string) and [str.lower].  They are the methods of one interface. *)

Class PyRuntime := {
  datetime : Type;
  (** [dt.strftime('%Y-%m-%d %H:%M')] *)
  strftime : datetime → string;
  (** [dt.isoformat()] *)
  isoformat : datetime → string;
  (** [repr(s)] for a string [s] *)
  repr : string → string;
  (** [s.lower()] *)
  lower : string → string
}.

(** ** Strings *)

(** The one-character string ["\n"]. *)
Definition nl : string := String "010"%char "".

(** [s * n]: repetition; a count of zero or less gives the empty string. *)
Definition str_mul (s : string) (n : Z) : string :=
  String.concat "" (replicate (Z.to_nat n) s).

(** [sep.join(parts)] *)
Definition join (sep : string) (parts : list string) : string :=
  String.concat sep parts.

(** Iterating over a string yields its characters as one-character strings. *)
Definition chars (s : string) : list string :=
  (λ c, String c "") <$> list_ascii_of_string s.

(** ** Field values

    A field holds a string or a list of strings; [None] is the default of
    [get_field] and so a value a caller can see. *)

Inductive value :=
  | VNone
  | VStr (s : string)
  | VList (items : list string).

Global Instance value_eq_dec : EqDecision value.
Proof. solve_decision. Defined.

(** [bool(v)]: [None], [""] and [[]] are falsy. *)
Definition truthy (v : value) : bool :=
  match v with
  | VNone => false
  | VStr s => negb (bool_decide (s = ""))
  | VList items => negb (bool_decide (items = []))
  end.

(** [isinstance(v, list)] *)
Definition isinstance_list (v : value) : bool :=
  match v with VList _ => true | _ => false end.

(** [str(v)], which is what an f-string field [{v}] expands to. *)
Definition py_str `{PyRuntime} (v : value) : string :=
  match v with
  | VNone => "None"
  | VStr s => s
  | VList items => "[" +:+ join ", " (repr <$> items) +:+ "]"
  end.

(** [for item in v]: the elements of a list, the characters of a string.
    [None] cannot be iterated over; the one function that iterates returns
    before it does so on a falsy value, and [[]] is given for it here. *)
Definition py_iter (v : value) : list string :=
  match v with
  | VNone => []
  | VStr s => chars s
  | VList items => items
  end.

(** ** Exceptions *)

Inductive exn :=
  | ValueError (msg : string)
  | KeyError (key : string).

Inductive result (A : Type) :=
  | Ok (a : A)
  | Raise (e : exn).
Arguments Ok {A} a.
Arguments Raise {A} e.

Global Instance result_ret : MRet result := λ A a, Ok a.

Global Instance result_bind : MBind result := λ A B k r,
  match r with
  | Ok a => k a
  | Raise e => Raise e
  end.

(** ** Dictionaries *)

(** [key in d] *)
Definition dict_contains {V} (d : gmap string V) (key : string) : bool :=
  bool_decide (is_Some (d !! key)).

(** [d[key]], which raises [KeyError] on a missing key. *)
Definition dict_getitem {V} (d : gmap string V) (key : string) : result V :=
  match d !! key with
  | Some v => Ok v
  | None => Raise (KeyError key)
  end.

(** ** The template object *)

(** The concrete class of an instance. *)
Inductive template_class :=
  | ConsultNoteTemplate
  | EpicHandoffTemplate
  | OperativeReportTemplate.

Global Instance template_class_eq_dec : EqDecision template_class.
Proof. solve_decision. Defined.

(** [cls.__name__] *)
Definition class_name (c : template_class) : string :=
  match c with
  | ConsultNoteTemplate => "ConsultNoteTemplate"
  | EpicHandoffTemplate => "EpicHandoffTemplate"
  | OperativeReportTemplate => "OperativeReportTemplate"
  end.

Record template `{PyRuntime} := {
  cls : template_class;
  fields : gmap string value;
  created_date : datetime;
  last_modified : datetime
}.

(** ** [MedicalNoteTemplate]: the base class

    Every method that reads the clock takes the reading as an argument;
    [__init__] reads it twice. *)

Module MedicalNoteTemplate.

Definition __init__ `{PyRuntime} (c : template_class) (now0 now1 : datetime)
    : template :=
  {| cls := c; fields := ∅; created_date := now0; last_modified := now1 |}.

Definition set_field `{PyRuntime} (self : template) (field_name : string)
    (v : value) (now : datetime) : template :=
  {| cls := cls self;
     fields := <[field_name := v]> (fields self);
     created_date := created_date self;
     last_modified := now |}.

Definition get_field `{PyRuntime} (self : template) (field_name : string)
    (default : value) : value :=
  match fields self !! field_name with
  | Some v => v
  | None => default
  end.

(** [dict.update]: the entries of [field_dict] win. *)
Definition set_multiple_fields `{PyRuntime} (self : template)
    (field_dict : gmap string value) (now : datetime) : template :=
  {| cls := cls self;
     fields := field_dict ∪ fields self;
     created_date := created_date self;
     last_modified := now |}.

Definition clear `{PyRuntime} (self : template) (now : datetime) : template :=
  {| cls := cls self;
     fields := ∅;
     created_date := created_date self;
     last_modified := now |}.

(** The dictionary built by [export_to_dict], one record field per key. *)
Record exported := {
  x_template_type : string;
  x_created_date : string;
  x_last_modified : string;
  x_fields : gmap string value
}.

Definition export_to_dict `{PyRuntime} (self : template) : exported :=
  {| x_template_type := class_name (cls self);
     x_created_date := isoformat (created_date self);
     x_last_modified := isoformat (last_modified self);
     x_fields := fields self |}.

Definition _format_section `{PyRuntime} (title : string) (content : value)
    (indent : Z) : string :=
  if negb (truthy content) then ""
  else
    let indent_str := str_mul " " indent in
    indent_str +:+ title +:+ ":" +:+ nl +:+ indent_str +:+ py_str content
      +:+ nl +:+ nl.

Definition _format_list_section (title : string) (items : value)
    (indent : Z) : string :=
  if negb (truthy items) then ""
  else
    let indent_str := str_mul " " indent in
    let formatted_items :=
      join nl ((λ item, indent_str +:+ "- " +:+ item) <$> py_iter items) in
    indent_str +:+ title +:+ ":" +:+ nl +:+ formatted_items +:+ nl +:+ nl.

(** The loop of [validate]: [missing_fields] is the accumulator, and the
    subscript [self.fields[field]] is only reached behind the [in] test. *)
Fixpoint validate_loop (flds : gmap string value) (required : list string)
    (missing_fields : list string) : result (list string) :=
  match required with
  | [] => Ok missing_fields
  | field :: rest =>
      is_missing ←
        (if negb (dict_contains flds field) then Ok true
         else v ← dict_getitem flds field ; Ok (negb (truthy v))) ;
      validate_loop flds rest
        (if is_missing : bool then missing_fields ++ [field]
         else missing_fields)
  end.

(** [validate], given the list its class returns from
    [get_required_fields]. *)
Definition validate_with `{PyRuntime} (required : list string)
    (self : template) : result (bool * list string) :=
  missing_fields ← validate_loop (fields self) required [] ;
  Ok (Nat.eqb (length missing_fields) 0, missing_fields).

End MedicalNoteTemplate.
Export MedicalNoteTemplate.

(** ** The local variable [note]

    Each renderer builds its text in one local variable by a sequence of
    statements; a statement is a transformer of that variable. *)

Definition stmt := string → string.

(** [note = e] *)
Definition assign (e : string) : stmt := λ _, e.

(** [note += e] *)
Definition add (e : string) : stmt := λ note, note +:+ e.

(** [if c: body] *)
Definition when (c : bool) (body : stmt) : stmt :=
  λ note, if c then body note else note.

(** [if c: s1 else: s2] *)
Definition if_else (c : bool) (s1 s2 : stmt) : stmt :=
  λ note, if c then s1 note else s2 note.

(** Running a block of statements in order. *)
Definition run (body : list stmt) (note : string) : string :=
  fold_left (λ n s, s n) body note.

(** The placeholder default passed to [get_field] for required fields. *)
Definition NOT_PROVIDED : value := VStr "[NOT PROVIDED]".

(** ** [ConsultNoteTemplate] *)

Module ConsultNoteTemplate.

Definition get_required_fields : list string :=
  [ "patient_name";
    "patient_mrn";
    "date_of_consult";
    "consulting_service";
    "reason_for_consult";
    "history_of_present_illness";
    "assessment";
    "recommendations" ].

Definition get_optional_fields : list string :=
  [ "patient_dob";
    "age";
    "sex";
    "referring_provider";
    "past_medical_history";
    "past_surgical_history";
    "medications";
    "allergies";
    "social_history";
    "family_history";
    "review_of_systems";
    "physical_exam";
    "labs";
    "imaging";
    "other_studies";
    "differential_diagnosis";
    "plan";
    "follow_up";
    "attending_physician";
    "consulting_physician" ].

Definition format_note `{PyRuntime} (self : template) (now : datetime)
    : string :=
  run [
    assign (str_mul "=" 80 +:+ nl);
    add ("CONSULTATION NOTE" +:+ nl);
    add ((str_mul "=" 80 +:+ nl) +:+ nl);
    (* Patient Demographics *)
    add ("PATIENT INFORMATION:" +:+ nl);
    add ("Name: " +:+ py_str (get_field self "patient_name" NOT_PROVIDED) +:+ nl);
    add ("MRN: " +:+ py_str (get_field self "patient_mrn" NOT_PROVIDED) +:+ nl);
    when (truthy (get_field self "patient_dob" VNone))
      (add ("DOB: " +:+ py_str (get_field self "patient_dob" VNone) +:+ nl));
    when (truthy (get_field self "age" VNone))
      (add ("Age: " +:+ py_str (get_field self "age" VNone) +:+ nl));
    when (truthy (get_field self "sex" VNone))
      (add ("Sex: " +:+ py_str (get_field self "sex" VNone) +:+ nl));
    add ("Date of Consult: "
           +:+ py_str (get_field self "date_of_consult" NOT_PROVIDED) +:+ nl);
    add ("Consulting Service: "
           +:+ py_str (get_field self "consulting_service" NOT_PROVIDED) +:+ nl);
    when (truthy (get_field self "referring_provider" VNone))
      (add ("Referring Provider: "
              +:+ py_str (get_field self "referring_provider" VNone) +:+ nl));
    add nl;
    (* Reason for Consult *)
    add (_format_section "REASON FOR CONSULT"
           (get_field self "reason_for_consult" NOT_PROVIDED) 0);
    (* History of Present Illness *)
    add (_format_section "HISTORY OF PRESENT ILLNESS"
           (get_field self "history_of_present_illness" NOT_PROVIDED) 0);
    (* Past Medical History *)
    when (truthy (get_field self "past_medical_history" VNone))
      (add (_format_section "PAST MEDICAL HISTORY"
              (get_field self "past_medical_history" VNone) 0));
    (* Past Surgical History *)
    when (truthy (get_field self "past_surgical_history" VNone))
      (add (_format_section "PAST SURGICAL HISTORY"
              (get_field self "past_surgical_history" VNone) 0));
    (* Medications *)
    when (truthy (get_field self "medications" VNone))
      (if_else (isinstance_list (get_field self "medications" VNone))
         (add (_format_list_section "MEDICATIONS"
                 (get_field self "medications" VNone) 0))
         (add (_format_section "MEDICATIONS"
                 (get_field self "medications" VNone) 0)));
    (* Allergies *)
    when (truthy (get_field self "allergies" VNone))
      (add (_format_section "ALLERGIES" (get_field self "allergies" VNone) 0));
    (* Social History *)
    when (truthy (get_field self "social_history" VNone))
      (add (_format_section "SOCIAL HISTORY"
              (get_field self "social_history" VNone) 0));
    (* Family History *)
    when (truthy (get_field self "family_history" VNone))
      (add (_format_section "FAMILY HISTORY"
              (get_field self "family_history" VNone) 0));
    (* Review of Systems *)
    when (truthy (get_field self "review_of_systems" VNone))
      (add (_format_section "REVIEW OF SYSTEMS"
              (get_field self "review_of_systems" VNone) 0));
    (* Physical Exam *)
    when (truthy (get_field self "physical_exam" VNone))
      (add (_format_section "PHYSICAL EXAMINATION"
              (get_field self "physical_exam" VNone) 0));
    (* Labs *)
    when (truthy (get_field self "labs" VNone))
      (add (_format_section "LABORATORY DATA" (get_field self "labs" VNone) 0));
    (* Imaging *)
    when (truthy (get_field self "imaging" VNone))
      (add (_format_section "IMAGING" (get_field self "imaging" VNone) 0));
    (* Other Studies *)
    when (truthy (get_field self "other_studies" VNone))
      (add (_format_section "OTHER STUDIES"
              (get_field self "other_studies" VNone) 0));
    (* Assessment *)
    add (_format_section "ASSESSMENT"
           (get_field self "assessment" NOT_PROVIDED) 0);
    (* Differential Diagnosis *)
    when (truthy (get_field self "differential_diagnosis" VNone))
      (if_else (isinstance_list (get_field self "differential_diagnosis" VNone))
         (add (_format_list_section "DIFFERENTIAL DIAGNOSIS"
                 (get_field self "differential_diagnosis" VNone) 0))
         (add (_format_section "DIFFERENTIAL DIAGNOSIS"
                 (get_field self "differential_diagnosis" VNone) 0)));
    (* Recommendations *)
    if_else (isinstance_list (get_field self "recommendations" VNone))
      (add (_format_list_section "RECOMMENDATIONS"
              (get_field self "recommendations" (VList ["[NOT PROVIDED]"])) 0))
      (add (_format_section "RECOMMENDATIONS"
              (get_field self "recommendations" NOT_PROVIDED) 0));
    (* Plan *)
    when (truthy (get_field self "plan" VNone))
      (if_else (isinstance_list (get_field self "plan" VNone))
         (add (_format_list_section "PLAN" (get_field self "plan" VNone) 0))
         (add (_format_section "PLAN" (get_field self "plan" VNone) 0)));
    (* Follow-up *)
    when (truthy (get_field self "follow_up" VNone))
      (add (_format_section "FOLLOW-UP" (get_field self "follow_up" VNone) 0));
    (* Signature *)
    add ((nl +:+ str_mul "-" 80) +:+ nl);
    when (truthy (get_field self "consulting_physician" VNone))
      (add ("Consulting Physician: "
              +:+ py_str (get_field self "consulting_physician" VNone) +:+ nl));
    when (truthy (get_field self "attending_physician" VNone))
      (add ("Attending Physician: "
              +:+ py_str (get_field self "attending_physician" VNone) +:+ nl));
    add ("Date: " +:+ strftime now +:+ nl)
  ] "".

End ConsultNoteTemplate.

(** ** [EpicHandoffTemplate] *)

Module EpicHandoffTemplate.

Definition get_required_fields : list string :=
  [ "patient_name";
    "patient_mrn";
    "patient_location";
    "primary_diagnosis";
    "active_issues" ].

Definition get_optional_fields : list string :=
  [ "age";
    "sex";
    "admission_date";
    "hospital_day";
    "brief_history";
    "past_medical_history";
    "code_status";
    "allergies";
    "vital_signs";
    "key_labs";
    "key_imaging";
    "current_medications";
    "iv_fluids";
    "diet";
    "activity";
    "lines_tubes_drains";
    "pending_studies";
    "pending_consults";
    "to_do_list";
    "if_then_scenarios";
    "anticipated_discharge_date";
    "discharge_planning";
    "family_communication";
    "handoff_from";
    "handoff_to" ].

Definition format_note `{PyRuntime} (self : template) (now : datetime)
    : string :=
  run [
    assign (str_mul "=" 80 +:+ nl);
    add ("HANDOFF NOTE" +:+ nl);
    add ((str_mul "=" 80 +:+ nl) +:+ nl);
    (* Header *)
    add ("Patient: " +:+ py_str (get_field self "patient_name" NOT_PROVIDED) +:+ nl);
    add ("MRN: " +:+ py_str (get_field self "patient_mrn" NOT_PROVIDED) +:+ nl);
    add ("Location: "
           +:+ py_str (get_field self "patient_location" NOT_PROVIDED) +:+ nl);
    when (truthy (get_field self "age" VNone))
      (add ("Age: " +:+ py_str (get_field self "age" VNone) +:+ nl));
    when (truthy (get_field self "sex" VNone))
      (add ("Sex: " +:+ py_str (get_field self "sex" VNone) +:+ nl));
    when (truthy (get_field self "admission_date" VNone))
      (add ("Admission Date: "
              +:+ py_str (get_field self "admission_date" VNone) +:+ nl));
    when (truthy (get_field self "hospital_day" VNone))
      (add ("Hospital Day: "
              +:+ py_str (get_field self "hospital_day" VNone) +:+ nl));
    when (truthy (get_field self "code_status" VNone))
      (add ("Code Status: "
              +:+ py_str (get_field self "code_status" VNone) +:+ nl));
    add ("Handoff Date/Time: " +:+ strftime now +:+ nl);
    when (truthy (get_field self "handoff_from" VNone))
      (add ("From: " +:+ py_str (get_field self "handoff_from" VNone) +:+ nl));
    when (truthy (get_field self "handoff_to" VNone))
      (add ("To: " +:+ py_str (get_field self "handoff_to" VNone) +:+ nl));
    add nl;
    (* Primary Diagnosis *)
    add (_format_section "PRIMARY DIAGNOSIS"
           (get_field self "primary_diagnosis" NOT_PROVIDED) 0);
    (* Brief History *)
    when (truthy (get_field self "brief_history" VNone))
      (add (_format_section "BRIEF HISTORY"
              (get_field self "brief_history" VNone) 0));
    (* Past Medical History *)
    when (truthy (get_field self "past_medical_history" VNone))
      (add (_format_section "PAST MEDICAL HISTORY"
              (get_field self "past_medical_history" VNone) 0));
    (* Allergies *)
    when (truthy (get_field self "allergies" VNone))
      (add (_format_section "ALLERGIES" (get_field self "allergies" VNone) 0));
    (* Active Issues *)
    if_else (isinstance_list (get_field self "active_issues" VNone))
      (add (_format_list_section "ACTIVE ISSUES"
              (get_field self "active_issues" (VList ["[NOT PROVIDED]"])) 0))
      (add (_format_section "ACTIVE ISSUES"
              (get_field self "active_issues" NOT_PROVIDED) 0));
    (* Vital Signs *)
    when (truthy (get_field self "vital_signs" VNone))
      (add (_format_section "VITAL SIGNS"
              (get_field self "vital_signs" VNone) 0));
    (* Key Labs *)
    when (truthy (get_field self "key_labs" VNone))
      (add (_format_section "KEY LABS" (get_field self "key_labs" VNone) 0));
    (* Key Imaging *)
    when (truthy (get_field self "key_imaging" VNone))
      (add (_format_section "KEY IMAGING"
              (get_field self "key_imaging" VNone) 0));
    (* Current Medications *)
    when (truthy (get_field self "current_medications" VNone))
      (if_else (isinstance_list (get_field self "current_medications" VNone))
         (add (_format_list_section "CURRENT MEDICATIONS"
                 (get_field self "current_medications" VNone) 0))
         (add (_format_section "CURRENT MEDICATIONS"
                 (get_field self "current_medications" VNone) 0)));
    (* IV Fluids *)
    when (truthy (get_field self "iv_fluids" VNone))
      (add (_format_section "IV FLUIDS" (get_field self "iv_fluids" VNone) 0));
    (* Diet *)
    when (truthy (get_field self "diet" VNone))
      (add (_format_section "DIET" (get_field self "diet" VNone) 0));
    (* Activity *)
    when (truthy (get_field self "activity" VNone))
      (add (_format_section "ACTIVITY" (get_field self "activity" VNone) 0));
    (* Lines, Tubes, Drains *)
    when (truthy (get_field self "lines_tubes_drains" VNone))
      (if_else (isinstance_list (get_field self "lines_tubes_drains" VNone))
         (add (_format_list_section "LINES/TUBES/DRAINS"
                 (get_field self "lines_tubes_drains" VNone) 0))
         (add (_format_section "LINES/TUBES/DRAINS"
                 (get_field self "lines_tubes_drains" VNone) 0)));
    (* Pending Studies *)
    when (truthy (get_field self "pending_studies" VNone))
      (if_else (isinstance_list (get_field self "pending_studies" VNone))
         (add (_format_list_section "PENDING STUDIES"
                 (get_field self "pending_studies" VNone) 0))
         (add (_format_section "PENDING STUDIES"
                 (get_field self "pending_studies" VNone) 0)));
    (* Pending Consults *)
    when (truthy (get_field self "pending_consults" VNone))
      (if_else (isinstance_list (get_field self "pending_consults" VNone))
         (add (_format_list_section "PENDING CONSULTS"
                 (get_field self "pending_consults" VNone) 0))
         (add (_format_section "PENDING CONSULTS"
                 (get_field self "pending_consults" VNone) 0)));
    (* To-Do List *)
    when (truthy (get_field self "to_do_list" VNone))
      (if_else (isinstance_list (get_field self "to_do_list" VNone))
         (add (_format_list_section "TO-DO LIST"
                 (get_field self "to_do_list" VNone) 0))
         (add (_format_section "TO-DO LIST"
                 (get_field self "to_do_list" VNone) 0)));
    (* If-Then Scenarios *)
    when (truthy (get_field self "if_then_scenarios" VNone))
      (if_else (isinstance_list (get_field self "if_then_scenarios" VNone))
         (add (_format_list_section "IF-THEN SCENARIOS"
                 (get_field self "if_then_scenarios" VNone) 0))
         (add (_format_section "IF-THEN SCENARIOS"
                 (get_field self "if_then_scenarios" VNone) 0)));
    (* Discharge Planning *)
    when (truthy (get_field self "anticipated_discharge_date" VNone))
      (add (_format_section "ANTICIPATED DISCHARGE DATE"
              (get_field self "anticipated_discharge_date" VNone) 0));
    when (truthy (get_field self "discharge_planning" VNone))
      (add (_format_section "DISCHARGE PLANNING"
              (get_field self "discharge_planning" VNone) 0));
    (* Family Communication *)
    when (truthy (get_field self "family_communication" VNone))
      (add (_format_section "FAMILY COMMUNICATION"
              (get_field self "family_communication" VNone) 0));
    add (str_mul "=" 80 +:+ nl)
  ] "".

End EpicHandoffTemplate.

(** ** [OperativeReportTemplate] *)

Module OperativeReportTemplate.

Definition get_required_fields : list string :=
  [ "patient_name";
    "patient_mrn";
    "date_of_surgery";
    "preoperative_diagnosis";
    "postoperative_diagnosis";
    "procedure_performed";
    "surgeon";
    "anesthesia_type";
    "operative_findings";
    "description_of_procedure";
    "estimated_blood_loss";
    "specimens";
    "complications";
    "disposition" ].

Definition get_optional_fields : list string :=
  [ "patient_dob";
    "age";
    "sex";
    "indication";
    "assistant_surgeon";
    "attending_surgeon";
    "anesthesiologist";
    "nurses";
    "start_time";
    "end_time";
    "total_time";
    "ivf_given";
    "urine_output";
    "drains";
    "implants";
    "counts_correct";
    "pathology";
    "condition";
    "follow_up_plan" ].

Definition format_note `{PyRuntime} (self : template) (now : datetime)
    : string :=
  run [
    assign (str_mul "=" 80 +:+ nl);
    add ("OPERATIVE REPORT" +:+ nl);
    add ((str_mul "=" 80 +:+ nl) +:+ nl);
    (* Patient Information *)
    add ("PATIENT INFORMATION:" +:+ nl);
    add ("Name: " +:+ py_str (get_field self "patient_name" NOT_PROVIDED) +:+ nl);
    add ("MRN: " +:+ py_str (get_field self "patient_mrn" NOT_PROVIDED) +:+ nl);
    when (truthy (get_field self "patient_dob" VNone))
      (add ("DOB: " +:+ py_str (get_field self "patient_dob" VNone) +:+ nl));
    when (truthy (get_field self "age" VNone))
      (add ("Age: " +:+ py_str (get_field self "age" VNone) +:+ nl));
    when (truthy (get_field self "sex" VNone))
      (add ("Sex: " +:+ py_str (get_field self "sex" VNone) +:+ nl));
    add ("Date of Surgery: "
           +:+ py_str (get_field self "date_of_surgery" NOT_PROVIDED) +:+ nl);
    when (truthy (get_field self "start_time" VNone))
      (add ("Start Time: " +:+ py_str (get_field self "start_time" VNone) +:+ nl));
    when (truthy (get_field self "end_time" VNone))
      (add ("End Time: " +:+ py_str (get_field self "end_time" VNone) +:+ nl));
    when (truthy (get_field self "total_time" VNone))
      (add ("Total Time: " +:+ py_str (get_field self "total_time" VNone) +:+ nl));
    add nl;
    (* Surgical Team *)
    add ("SURGICAL TEAM:" +:+ nl);
    add ("Surgeon: " +:+ py_str (get_field self "surgeon" NOT_PROVIDED) +:+ nl);
    when (truthy (get_field self "assistant_surgeon" VNone))
      (add ("Assistant Surgeon: "
              +:+ py_str (get_field self "assistant_surgeon" VNone) +:+ nl));
    when (truthy (get_field self "attending_surgeon" VNone))
      (add ("Attending Surgeon: "
              +:+ py_str (get_field self "attending_surgeon" VNone) +:+ nl));
    when (truthy (get_field self "anesthesiologist" VNone))
      (add ("Anesthesiologist: "
              +:+ py_str (get_field self "anesthesiologist" VNone) +:+ nl));
    add ("Anesthesia Type: "
           +:+ py_str (get_field self "anesthesia_type" NOT_PROVIDED) +:+ nl);
    when (truthy (get_field self "nurses" VNone))
      (add ("Nursing Staff: " +:+ py_str (get_field self "nurses" VNone) +:+ nl));
    add nl;
    (* Diagnoses *)
    add (_format_section "PREOPERATIVE DIAGNOSIS"
           (get_field self "preoperative_diagnosis" NOT_PROVIDED) 0);
    add (_format_section "POSTOPERATIVE DIAGNOSIS"
           (get_field self "postoperative_diagnosis" NOT_PROVIDED) 0);
    (* Procedure *)
    if_else (isinstance_list (get_field self "procedure_performed" VNone))
      (add (_format_list_section "PROCEDURE(S) PERFORMED"
              (get_field self "procedure_performed" (VList ["[NOT PROVIDED]"])) 0))
      (add (_format_section "PROCEDURE(S) PERFORMED"
              (get_field self "procedure_performed" NOT_PROVIDED) 0));
    (* Indication *)
    when (truthy (get_field self "indication" VNone))
      (add (_format_section "INDICATION" (get_field self "indication" VNone) 0));
    (* Operative Findings *)
    add (_format_section "OPERATIVE FINDINGS"
           (get_field self "operative_findings" NOT_PROVIDED) 0);
    (* Description of Procedure *)
    add (_format_section "DESCRIPTION OF PROCEDURE"
           (get_field self "description_of_procedure" NOT_PROVIDED) 0);
    (* Intraoperative Details *)
    add ("INTRAOPERATIVE DETAILS:" +:+ nl);
    add ("Estimated Blood Loss: "
           +:+ py_str (get_field self "estimated_blood_loss" NOT_PROVIDED) +:+ nl);
    when (truthy (get_field self "ivf_given" VNone))
      (add ("IV Fluids Given: "
              +:+ py_str (get_field self "ivf_given" VNone) +:+ nl));
    when (truthy (get_field self "urine_output" VNone))
      (add ("Urine Output: "
              +:+ py_str (get_field self "urine_output" VNone) +:+ nl));
    add nl;
    (* Specimens *)
    add (_format_section "SPECIMENS" (get_field self "specimens" NOT_PROVIDED) 0);
    (* Pathology *)
    when (truthy (get_field self "pathology" VNone))
      (add (_format_section "PATHOLOGY" (get_field self "pathology" VNone) 0));
    (* Drains/Implants *)
    when (truthy (get_field self "drains" VNone))
      (add (_format_section "DRAINS" (get_field self "drains" VNone) 0));
    when (truthy (get_field self "implants" VNone))
      (add (_format_section "IMPLANTS" (get_field self "implants" VNone) 0));
    (* Counts *)
    when (truthy (get_field self "counts_correct" VNone))
      (add (_format_section "COUNTS" (get_field self "counts_correct" VNone) 0));
    (* Complications *)
    add (_format_section "COMPLICATIONS"
           (get_field self "complications" NOT_PROVIDED) 0);
    (* Disposition *)
    add (_format_section "DISPOSITION"
           (get_field self "disposition" NOT_PROVIDED) 0);
    (* Condition *)
    when (truthy (get_field self "condition" VNone))
      (add (_format_section "CONDITION" (get_field self "condition" VNone) 0));
    (* Follow-up *)
    when (truthy (get_field self "follow_up_plan" VNone))
      (add (_format_section "FOLLOW-UP PLAN"
              (get_field self "follow_up_plan" VNone) 0));
    (* Signature *)
    add ((nl +:+ str_mul "-" 80) +:+ nl);
    add ("Surgeon: " +:+ py_str (get_field self "surgeon" NOT_PROVIDED) +:+ nl);
    when (truthy (get_field self "attending_surgeon" VNone))
      (add ("Attending: "
              +:+ py_str (get_field self "attending_surgeon" VNone) +:+ nl));
    add ("Date: " +:+ strftime now +:+ nl)
  ] "".

End OperativeReportTemplate.

(** ** Method dispatch on the class of [self] *)

Definition get_required_fields (c : template_class) : list string :=
  match c with
  | ConsultNoteTemplate => ConsultNoteTemplate.get_required_fields
  | EpicHandoffTemplate => EpicHandoffTemplate.get_required_fields
  | OperativeReportTemplate => OperativeReportTemplate.get_required_fields
  end.

Definition get_optional_fields (c : template_class) : list string :=
  match c with
  | ConsultNoteTemplate => ConsultNoteTemplate.get_optional_fields
  | EpicHandoffTemplate => EpicHandoffTemplate.get_optional_fields
  | OperativeReportTemplate => OperativeReportTemplate.get_optional_fields
  end.

Definition format_note `{PyRuntime} (self : template) (now : datetime)
    : string :=
  match cls self with
  | ConsultNoteTemplate => ConsultNoteTemplate.format_note self now
  | EpicHandoffTemplate => EpicHandoffTemplate.format_note self now
  | OperativeReportTemplate => OperativeReportTemplate.format_note self now
  end.

(** [self.validate()], with [self.get_required_fields()] resolved. *)
Definition validate `{PyRuntime} (self : template)
    : result (bool * list string) :=
  validate_with (get_required_fields (cls self)) self.

(** ** The factory *)

(** The dictionary literal [templates], keys in the order written. *)
Definition templates : list (string * template_class) :=
  [ ("consult", ConsultNoteTemplate);
    ("handoff", EpicHandoffTemplate);
    ("operative", OperativeReportTemplate) ].

(** [templates.keys()] *)
Definition keys {V} (d : list (string * V)) : list string := d.*1.

(** [d[key]] on a dictionary literal. *)
Fixpoint literal_getitem {V} (d : list (string * V)) (key : string)
    : result V :=
  match d with
  | [] => Raise (KeyError key)
  | (k, v) :: rest => if bool_decide (k = key) then Ok v
                      else literal_getitem rest key
  end.

Definition create_template `{PyRuntime} (template_type : string)
    (now0 now1 : datetime) : result template :=
  let template_type := lower template_type in
  if negb (bool_decide (template_type ∈ keys templates)) then
    Raise (ValueError
             (("Unknown template type: " +:+ template_type +:+ ". ")
                +:+ ("Valid types are: " +:+ join ", " (keys templates))))
  else
    c ← literal_getitem templates template_type;
    Ok (__init__ c now0 now1).

(** ** Method calls on an instance

    A call on a template returns a value and leaves the instance in some
    state; [exec] gives both, or the exception raised. *)

Inductive call :=
  | Call_set_field (field_name : string) (v : value)
  | Call_get_field (field_name : string) (default : value)
  | Call_set_multiple_fields (field_dict : gmap string value)
  | Call_validate
  | Call_clear
  | Call_export_to_dict
  | Call_format_note.

Inductive returned :=
  | RNone
  | RValue (v : value)
  | RValidation (r : bool * list string)
  | RExported (d : exported)
  | RText (s : string).

Definition exec `{PyRuntime} (c : call) (now : datetime) (self : template)
    : result (returned * template) :=
  match c with
  | Call_set_field field_name v =>
      Ok (RNone, set_field self field_name v now)
  | Call_get_field field_name default =>
      Ok (RValue (get_field self field_name default), self)
  | Call_set_multiple_fields field_dict =>
      Ok (RNone, set_multiple_fields self field_dict now)
  | Call_validate =>
      r ← validate self; Ok (RValidation r, self)
  | Call_clear =>
      Ok (RNone, clear self now)
  | Call_export_to_dict =>
      Ok (RExported (export_to_dict self), self)
  | Call_format_note =>
      Ok (RText (format_note self now), self)
  end.

(** The calls that assign to an attribute of [self]. *)
Definition mutating (c : call) : bool :=
  match c with
  | Call_set_field _ _ | Call_set_multiple_fields _ | Call_clear => true
  | _ => false
  end.

(** ** A runtime to evaluate examples with

    Clock readings are kept as their ISO text without a fractional part
    (["2025-10-20T14:30:00"]), from which the minute format is cut; [repr]
    and [lower] are as CPython computes them on plain ASCII text without
    quotes, backslashes or control characters. *)

Definition ascii_lower (c : ascii) : ascii :=
  let n := nat_of_ascii c in
  if (65 <=? n)%nat && (n <=? 90)%nat then ascii_of_nat (n + 32) else c.

Definition text_runtime : PyRuntime :=
  {| datetime := string;
     strftime dt := substring 0 10 dt +:+ " " +:+ substring 11 5 dt;
     isoformat dt := dt;
     repr s := "'" +:+ s +:+ "'";
     lower s := string_of_list_ascii (ascii_lower <$> list_ascii_of_string s) |}.

(** ** Vocabulary of the statements *)

(** [sub in s], [s.startswith(p)] and [s.endswith(suf)], as propositions and
    as the tests that decide them. *)
Definition contains (sub s : string) : Prop :=
  ∃ pre post, s = pre +:+ sub +:+ post.

Definition starts_with (p s : string) : Prop :=
  ∃ post, s = p +:+ post.

Definition ends_with (suf s : string) : Prop :=
  ∃ pre, s = pre +:+ suf.

Fixpoint starts_withb (p s : string) : bool :=
  match p, s with
  | "", _ => true
  | String a p', String b s' => bool_decide (a = b) && starts_withb p' s'
  | String _ _, "" => false
  end.

Fixpoint containsb (sub s : string) : bool :=
  starts_withb sub s
  || match s with
     | "" => false
     | String _ s' => containsb sub s'
     end.

Fixpoint ends_withb (suf s : string) : bool :=
  bool_decide (s = suf)
  || match s with
     | "" => false
     | String _ s' => ends_withb suf s'
     end.

(** A statement that only ever extends [note], by a text of its own. *)
Definition appends (s : stmt) : Prop :=
  ∃ x, ∀ note, s note = note +:+ x.

(** A required field is missing when it is absent from the store or bound
    to a falsy value. *)
Definition falsy (v : value) : Prop :=
  v = VNone ∨ v = VStr "" ∨ v = VList [].

Definition absent_or_falsy (flds : gmap string value) (field : string)
    : Prop :=
  match flds !! field with
  | None => True
  | Some v => falsy v
  end.

Global Instance falsy_dec v : Decision (falsy v).
Proof. unfold falsy. apply _. Defined.

Global Instance absent_or_falsy_dec flds field :
  Decision (absent_or_falsy flds field).
Proof. unfold absent_or_falsy. destruct (flds !! field); apply _. Defined.

(** The two shapes a missing required field takes in a note: a labelled
    line and a titled section, both carrying the placeholder. *)
Definition placeholder_line (label : string) : string :=
  label +:+ ": [NOT PROVIDED]" +:+ nl.

Definition placeholder_section (title : string) : string :=
  title +:+ ":" +:+ nl +:+ "[NOT PROVIDED]" +:+ nl +:+ nl.

(** For each class, its required fields with the text that stands for the
    field in the note when nothing was provided, as laid out by the
    renderer of the class. *)
Definition placeholders (c : template_class) : list (string * string) :=
  match c with
  | ConsultNoteTemplate =>
      [ ("patient_name", placeholder_line "Name");
        ("patient_mrn", placeholder_line "MRN");
        ("date_of_consult", placeholder_line "Date of Consult");
        ("consulting_service", placeholder_line "Consulting Service");
        ("reason_for_consult", placeholder_section "REASON FOR CONSULT");
        ("history_of_present_illness",
           placeholder_section "HISTORY OF PRESENT ILLNESS");
        ("assessment", placeholder_section "ASSESSMENT");
        ("recommendations", placeholder_section "RECOMMENDATIONS") ]
  | EpicHandoffTemplate =>
      [ ("patient_name", placeholder_line "Patient");
        ("patient_mrn", placeholder_line "MRN");
        ("patient_location", placeholder_line "Location");
        ("primary_diagnosis", placeholder_section "PRIMARY DIAGNOSIS");
        ("active_issues", placeholder_section "ACTIVE ISSUES") ]
  | OperativeReportTemplate =>
      [ ("patient_name", placeholder_line "Name");
        ("patient_mrn", placeholder_line "MRN");
        ("date_of_surgery", placeholder_line "Date of Surgery");
        ("preoperative_diagnosis",
           placeholder_section "PREOPERATIVE DIAGNOSIS");
        ("postoperative_diagnosis",
           placeholder_section "POSTOPERATIVE DIAGNOSIS");
        ("procedure_performed",
           placeholder_section "PROCEDURE(S) PERFORMED");
        ("surgeon", placeholder_line "Surgeon");
        ("anesthesia_type", placeholder_line "Anesthesia Type");
        ("operative_findings", placeholder_section "OPERATIVE FINDINGS");
        ("description_of_procedure",
           placeholder_section "DESCRIPTION OF PROCEDURE");
        ("estimated_blood_loss", placeholder_line "Estimated Blood Loss");
        ("specimens", placeholder_section "SPECIMENS");
        ("complications", placeholder_section "COMPLICATIONS");
        ("disposition", placeholder_section "DISPOSITION") ]
  end.

(** The fields each renderer lays out as a list section when they hold a
    list, with the title of the section. *)
Definition list_sections (c : template_class) : list (string * string) :=
  match c with
  | ConsultNoteTemplate =>
      [ ("medications", "MEDICATIONS");
        ("differential_diagnosis", "DIFFERENTIAL DIAGNOSIS");
        ("recommendations", "RECOMMENDATIONS");
        ("plan", "PLAN") ]
  | EpicHandoffTemplate =>
      [ ("active_issues", "ACTIVE ISSUES");
        ("current_medications", "CURRENT MEDICATIONS");
        ("lines_tubes_drains", "LINES/TUBES/DRAINS");
        ("pending_studies", "PENDING STUDIES");
        ("pending_consults", "PENDING CONSULTS");
        ("to_do_list", "TO-DO LIST");
        ("if_then_scenarios", "IF-THEN SCENARIOS") ]
  | OperativeReportTemplate =>
      [ ("procedure_performed", "PROCEDURE(S) PERFORMED") ]
  end.

(** A titled section whose body is the given lines, and one whose body is
    a single block of text. *)
Definition section_of_lines (title : string) (lines : list string) : string :=
  title +:+ ":" +:+ nl +:+ join nl lines +:+ nl +:+ nl.

Definition section_of_text (title text : string) : string :=
  title +:+ ":" +:+ nl +:+ text +:+ nl +:+ nl.

(** The banner every note opens with. *)
Definition banner_title (c : template_class) : string :=
  match c with
  | ConsultNoteTemplate => "CONSULTATION NOTE"
  | EpicHandoffTemplate => "HANDOFF NOTE"
  | OperativeReportTemplate => "OPERATIVE REPORT"
  end.

Definition header_banner (c : template_class) : string :=
  str_mul "=" 80 +:+ nl +:+ banner_title c +:+ nl +:+ str_mul "=" 80 +:+ nl
    +:+ nl.

(** A closing signature block: a dashed rule, the signers' lines, and the
    line with the time of rendering, which ends the note. *)
Definition signature_footer (stamp note : string) : Prop :=
  ∃ body signers,
    note = body +:+ (nl +:+ str_mul "-" 80 +:+ nl) +:+ signers
             +:+ "Date: " +:+ stamp +:+ nl.

(** Templates to evaluate examples on, under [text_runtime]. *)
Definition sample_time : string := "2025-10-20T14:30:00".

Definition sample (c : template_class) (entries : list (string * value))
    : @template text_runtime :=
  foldl (λ self e, @set_field text_runtime self e.1 e.2 sample_time)
        (@__init__ text_runtime c sample_time sample_time) entries.

(** A session: calls made one after the other on the same instance, each
    with the clock reading it sees. *)
Fixpoint exec_all `{PyRuntime} (calls : list (call * datetime))
    (self : template) : result template :=
  match calls with
  | [] => Ok self
  | (c, now) :: rest => r ← exec c now self; exec_all rest r.2
  end.

(** ** The layout of the notes

    For each class, the fields its renderer shows on a labelled line and
    the fields it shows as a titled section of text, with the label or the
    title.  Together with [list_sections] these are all the places where a
    renderer reads the store. *)
Definition line_fields (c : template_class) : list (string * string) :=
  match c with
  | ConsultNoteTemplate =>
      [ ("patient_name", "Name");
        ("patient_mrn", "MRN");
        ("patient_dob", "DOB");
        ("age", "Age");
        ("sex", "Sex");
        ("date_of_consult", "Date of Consult");
        ("consulting_service", "Consulting Service");
        ("referring_provider", "Referring Provider");
        ("consulting_physician", "Consulting Physician");
        ("attending_physician", "Attending Physician") ]
  | EpicHandoffTemplate =>
      [ ("patient_name", "Patient");
        ("patient_mrn", "MRN");
        ("patient_location", "Location");
        ("age", "Age");
        ("sex", "Sex");
        ("admission_date", "Admission Date");
        ("hospital_day", "Hospital Day");
        ("code_status", "Code Status");
        ("handoff_from", "From");
        ("handoff_to", "To") ]
  | OperativeReportTemplate =>
      [ ("patient_name", "Name");
        ("patient_mrn", "MRN");
        ("patient_dob", "DOB");
        ("age", "Age");
        ("sex", "Sex");
        ("date_of_surgery", "Date of Surgery");
        ("start_time", "Start Time");
        ("end_time", "End Time");
        ("total_time", "Total Time");
        ("surgeon", "Surgeon");
        ("assistant_surgeon", "Assistant Surgeon");
        ("attending_surgeon", "Attending Surgeon");
        ("anesthesiologist", "Anesthesiologist");
        ("anesthesia_type", "Anesthesia Type");
        ("nurses", "Nursing Staff");
        ("estimated_blood_loss", "Estimated Blood Loss");
        ("ivf_given", "IV Fluids Given");
        ("urine_output", "Urine Output");
        ("attending_surgeon", "Attending") ]
  end.

Definition text_sections (c : template_class) : list (string * string) :=
  match c with
  | ConsultNoteTemplate =>
      [ ("reason_for_consult", "REASON FOR CONSULT");
        ("history_of_present_illness", "HISTORY OF PRESENT ILLNESS");
        ("past_medical_history", "PAST MEDICAL HISTORY");
        ("past_surgical_history", "PAST SURGICAL HISTORY");
        ("allergies", "ALLERGIES");
        ("social_history", "SOCIAL HISTORY");
        ("family_history", "FAMILY HISTORY");
        ("review_of_systems", "REVIEW OF SYSTEMS");
        ("physical_exam", "PHYSICAL EXAMINATION");
        ("labs", "LABORATORY DATA");
        ("imaging", "IMAGING");
        ("other_studies", "OTHER STUDIES");
        ("assessment", "ASSESSMENT");
        ("follow_up", "FOLLOW-UP") ]
  | EpicHandoffTemplate =>
      [ ("primary_diagnosis", "PRIMARY DIAGNOSIS");
        ("brief_history", "BRIEF HISTORY");
        ("past_medical_history", "PAST MEDICAL HISTORY");
        ("allergies", "ALLERGIES");
        ("vital_signs", "VITAL SIGNS");
        ("key_labs", "KEY LABS");
        ("key_imaging", "KEY IMAGING");
        ("iv_fluids", "IV FLUIDS");
        ("diet", "DIET");
        ("activity", "ACTIVITY");
        ("anticipated_discharge_date", "ANTICIPATED DISCHARGE DATE");
        ("discharge_planning", "DISCHARGE PLANNING");
        ("family_communication", "FAMILY COMMUNICATION") ]
  | OperativeReportTemplate =>
      [ ("preoperative_diagnosis", "PREOPERATIVE DIAGNOSIS");
        ("postoperative_diagnosis", "POSTOPERATIVE DIAGNOSIS");
        ("indication", "INDICATION");
        ("operative_findings", "OPERATIVE FINDINGS");
        ("description_of_procedure", "DESCRIPTION OF PROCEDURE");
        ("specimens", "SPECIMENS");
        ("pathology", "PATHOLOGY");
        ("drains", "DRAINS");
        ("implants", "IMPLANTS");
        ("counts_correct", "COUNTS");
        ("complications", "COMPLICATIONS");
        ("disposition", "DISPOSITION");
        ("condition", "CONDITION");
        ("follow_up_plan", "FOLLOW-UP PLAN") ]
  end.

(** The names a class declares, required first. *)
Definition declared_fields (c : template_class) : list string :=
  get_required_fields c ++ get_optional_fields c.

(** The names a renderer has a place for. *)
Definition rendered_fields (c : template_class) : list string :=
  (line_fields c).*1 ++ (text_sections c).*1 ++ (list_sections c).*1.

(** The time of the last mutating call of a session, or the given time
    when there is none. *)
Fixpoint last_mutation `{PyRuntime} (calls : list (call * datetime))
    (t : datetime) : datetime :=
  match calls with
  | [] => t
  | (c, now) :: rest => last_mutation rest (if mutating c then now else t)
  end.

(** Two stores that a renderer of class [c] cannot tell apart: on every
    declared field they agree, or the field is optional and is missing,
    absent or falsy, in both. *)
Definition same_for_rendering (c : template_class)
    (flds1 flds2 : gmap string value) : Prop :=
  ∀ field, field ∈ declared_fields c →
    flds1 !! field = flds2 !! field
    ∨ (field ∈ get_optional_fields c
       ∧ absent_or_falsy flds1 field ∧ absent_or_falsy flds2 field).

(** ** The places of a note

    A note is a sequence of places: fixed text, the line with the time of
    rendering, and the places of the fields.  A field is shown on a
    labelled line, as a titled section of text, or as a titled section that
    is a list when the value is one.  A place is [required] when the
    renderer shows the placeholder for a field that is not in the store;
    the other places are left out for a field that is absent or falsy. *)
Inductive place :=
  | Fixed (text : string)
  | Time (label : string)
  | Line (required : bool) (field label : string)
  | Section (required : bool) (field title : string)
  | ListSection (required : bool) (field title : string).

Global Instance place_eq_dec : EqDecision place.
Proof. solve_decision. Defined.

Definition place_field (p : place) : option string :=
  match p with
  | Fixed _ | Time _ => None
  | Line _ field _ | Section _ field _ | ListSection _ field _ => Some field
  end.

Definition place_required (p : place) : bool :=
  match p with
  | Fixed _ | Time _ => false
  | Line required _ _ | Section required _ _ | ListSection required _ _ =>
      required
  end.

(** What a place shows for a value that is in the store: the value as
    [str] gives it, or one bullet line per item; a section is left out for
    a falsy value, and so is a line that is not required. *)
Definition shown_value `{PyRuntime} (p : place) (v : value) : string :=
  match p with
  | Fixed _ | Time _ => ""
  | Line required _ label =>
      if required || truthy v then label +:+ ": " +:+ py_str v +:+ nl else ""
  | Section _ _ title =>
      if truthy v then section_of_text title (py_str v) else ""
  | ListSection _ _ title =>
      if truthy v then
        match v with
        | VList items =>
            section_of_lines title ((λ item, "- " +:+ item) <$> items)
        | _ => section_of_text title (py_str v)
        end
      else ""
  end.

(** What a place shows for a field that is not in the store: the
    placeholder when the place is required, and nothing otherwise. *)
Definition shown_absent (p : place) : string :=
  match p with
  | Line true _ label => placeholder_line label
  | Section true _ title | ListSection true _ title =>
      placeholder_section title
  | _ => ""
  end.

Definition shown `{PyRuntime} (flds : gmap string value) (stamp : string)
    (p : place) : string :=
  match p with
  | Fixed text => text
  | Time label => label +:+ stamp +:+ nl
  | Line _ field _ | Section _ field _ | ListSection _ field _ =>
      match flds !! field with
      | Some v => shown_value p v
      | None => shown_absent p
      end
  end.

(** The text of a sequence of places, one after the other. *)
Definition render_places `{PyRuntime} (flds : gmap string value)
    (stamp : string) (places : list place) : string :=
  foldr (λ p rest, shown flds stamp p +:+ rest) "" places.

(** The header of each class: the banner and the lines under it, up to the
    blank line before the first section. *)
Definition header_places (c : template_class) : list place :=
  match c with
  | ConsultNoteTemplate =>
      [ Fixed (str_mul "=" 80 +:+ nl);
        Fixed ("CONSULTATION NOTE" +:+ nl);
        Fixed ((str_mul "=" 80 +:+ nl) +:+ nl);
        Fixed ("PATIENT INFORMATION:" +:+ nl);
        Line true "patient_name" "Name";
        Line true "patient_mrn" "MRN";
        Line false "patient_dob" "DOB";
        Line false "age" "Age";
        Line false "sex" "Sex";
        Line true "date_of_consult" "Date of Consult";
        Line true "consulting_service" "Consulting Service";
        Line false "referring_provider" "Referring Provider";
        Fixed nl ]
  | EpicHandoffTemplate =>
      [ Fixed (str_mul "=" 80 +:+ nl);
        Fixed ("HANDOFF NOTE" +:+ nl);
        Fixed ((str_mul "=" 80 +:+ nl) +:+ nl);
        Line true "patient_name" "Patient";
        Line true "patient_mrn" "MRN";
        Line true "patient_location" "Location";
        Line false "age" "Age";
        Line false "sex" "Sex";
        Line false "admission_date" "Admission Date";
        Line false "hospital_day" "Hospital Day";
        Line false "code_status" "Code Status";
        Time "Handoff Date/Time: ";
        Line false "handoff_from" "From";
        Line false "handoff_to" "To";
        Fixed nl ]
  | OperativeReportTemplate =>
      [ Fixed (str_mul "=" 80 +:+ nl);
        Fixed ("OPERATIVE REPORT" +:+ nl);
        Fixed ((str_mul "=" 80 +:+ nl) +:+ nl);
        Fixed ("PATIENT INFORMATION:" +:+ nl);
        Line true "patient_name" "Name";
        Line true "patient_mrn" "MRN";
        Line false "patient_dob" "DOB";
        Line false "age" "Age";
        Line false "sex" "Sex";
        Line true "date_of_surgery" "Date of Surgery";
        Line false "start_time" "Start Time";
        Line false "end_time" "End Time";
        Line false "total_time" "Total Time";
        Fixed nl;
        Fixed ("SURGICAL TEAM:" +:+ nl);
        Line true "surgeon" "Surgeon";
        Line false "assistant_surgeon" "Assistant Surgeon";
        Line false "attending_surgeon" "Attending Surgeon";
        Line false "anesthesiologist" "Anesthesiologist";
        Line true "anesthesia_type" "Anesthesia Type";
        Line false "nurses" "Nursing Staff";
        Fixed nl ]
  end.

(** The body of each class: its sections, in order. *)
Definition body_places (c : template_class) : list place :=
  match c with
  | ConsultNoteTemplate =>
      [ Section true "reason_for_consult" "REASON FOR CONSULT";
        Section true "history_of_present_illness" "HISTORY OF PRESENT ILLNESS";
        Section false "past_medical_history" "PAST MEDICAL HISTORY";
        Section false "past_surgical_history" "PAST SURGICAL HISTORY";
        ListSection false "medications" "MEDICATIONS";
        Section false "allergies" "ALLERGIES";
        Section false "social_history" "SOCIAL HISTORY";
        Section false "family_history" "FAMILY HISTORY";
        Section false "review_of_systems" "REVIEW OF SYSTEMS";
        Section false "physical_exam" "PHYSICAL EXAMINATION";
        Section false "labs" "LABORATORY DATA";
        Section false "imaging" "IMAGING";
        Section false "other_studies" "OTHER STUDIES";
        Section true "assessment" "ASSESSMENT";
        ListSection false "differential_diagnosis" "DIFFERENTIAL DIAGNOSIS";
        ListSection true "recommendations" "RECOMMENDATIONS";
        ListSection false "plan" "PLAN";
        Section false "follow_up" "FOLLOW-UP" ]
  | EpicHandoffTemplate =>
      [ Section true "primary_diagnosis" "PRIMARY DIAGNOSIS";
        Section false "brief_history" "BRIEF HISTORY";
        Section false "past_medical_history" "PAST MEDICAL HISTORY";
        Section false "allergies" "ALLERGIES";
        ListSection true "active_issues" "ACTIVE ISSUES";
        Section false "vital_signs" "VITAL SIGNS";
        Section false "key_labs" "KEY LABS";
        Section false "key_imaging" "KEY IMAGING";
        ListSection false "current_medications" "CURRENT MEDICATIONS";
        Section false "iv_fluids" "IV FLUIDS";
        Section false "diet" "DIET";
        Section false "activity" "ACTIVITY";
        ListSection false "lines_tubes_drains" "LINES/TUBES/DRAINS";
        ListSection false "pending_studies" "PENDING STUDIES";
        ListSection false "pending_consults" "PENDING CONSULTS";
        ListSection false "to_do_list" "TO-DO LIST";
        ListSection false "if_then_scenarios" "IF-THEN SCENARIOS";
        Section false "anticipated_discharge_date" "ANTICIPATED DISCHARGE DATE";
        Section false "discharge_planning" "DISCHARGE PLANNING";
        Section false "family_communication" "FAMILY COMMUNICATION" ]
  | OperativeReportTemplate =>
      [ Section true "preoperative_diagnosis" "PREOPERATIVE DIAGNOSIS";
        Section true "postoperative_diagnosis" "POSTOPERATIVE DIAGNOSIS";
        ListSection true "procedure_performed" "PROCEDURE(S) PERFORMED";
        Section false "indication" "INDICATION";
        Section true "operative_findings" "OPERATIVE FINDINGS";
        Section true "description_of_procedure" "DESCRIPTION OF PROCEDURE";
        Fixed ("INTRAOPERATIVE DETAILS:" +:+ nl);
        Line true "estimated_blood_loss" "Estimated Blood Loss";
        Line false "ivf_given" "IV Fluids Given";
        Line false "urine_output" "Urine Output";
        Fixed nl;
        Section true "specimens" "SPECIMENS";
        Section false "pathology" "PATHOLOGY";
        Section false "drains" "DRAINS";
        Section false "implants" "IMPLANTS";
        Section false "counts_correct" "COUNTS";
        Section true "complications" "COMPLICATIONS";
        Section true "disposition" "DISPOSITION";
        Section false "condition" "CONDITION";
        Section false "follow_up_plan" "FOLLOW-UP PLAN" ]
  end.

(** The footer of each class: what follows the last section. *)
Definition footer_places (c : template_class) : list place :=
  match c with
  | ConsultNoteTemplate =>
      [ Fixed ((nl +:+ str_mul "-" 80) +:+ nl);
        Line false "consulting_physician" "Consulting Physician";
        Line false "attending_physician" "Attending Physician";
        Time "Date: " ]
  | EpicHandoffTemplate =>
      [ Fixed (str_mul "=" 80 +:+ nl) ]
  | OperativeReportTemplate =>
      [ Fixed ((nl +:+ str_mul "-" 80) +:+ nl);
        Line true "surgeon" "Surgeon";
        Line false "attending_surgeon" "Attending";
        Time "Date: " ]
  end.

(** The whole note. *)
Definition layout (c : template_class) : list place :=
  header_places c ++ body_places c ++ footer_places c.

(** The fields that have a place in a sequence of places. *)
Definition placed_fields (places : list place) : list string :=
  omap place_field places.

(** * Theorems *)

(** ** Strings *)

Lemma str_app_nil_l (s : string) : "" +:+ s = s.
Proof. done. Qed.

Lemma str_app_cons (x : ascii) (a b : string) :
  String x a +:+ b = String x (a +:+ b).
Proof. done. Qed.

Lemma str_app_assoc (a b c : string) : (a +:+ b) +:+ c = a +:+ b +:+ c.
Proof.
  induction a as [|x a IH]; [done |]. by rewrite !str_app_cons, IH.
Qed.

Lemma str_app_nil_r (s : string) : s +:+ "" = s.
Proof. induction s as [|x s IH]; [done |]. by rewrite str_app_cons, IH. Qed.

Lemma contains_refl (s : string) : contains s s.
Proof. exists "", "". by rewrite str_app_nil_r. Qed.

Lemma contains_app_l (sub a b : string) :
  contains sub a → contains sub (a +:+ b).
Proof.
  intros (pre & post & ->). exists pre, (post +:+ b).
  by rewrite !str_app_assoc.
Qed.

Lemma contains_app_r (sub a b : string) :
  contains sub b → contains sub (a +:+ b).
Proof.
  intros (pre & post & ->). exists (a +:+ pre), post.
  by rewrite !str_app_assoc.
Qed.

Lemma starts_withb_spec (p s : string) :
  starts_withb p s = true ↔ starts_with p s.
Proof.
  revert s. induction p as [|a p IH]; intros s; simpl.
  - split; [intros _; by exists s | done].
  - destruct s as [|b s].
    + split; [done |]. intros [post H]. by rewrite str_app_cons in H.
    + rewrite andb_true_iff, bool_decide_eq_true, IH. split.
      * intros [-> [post ->]]. by exists post.
      * intros [post H]. rewrite str_app_cons in H. injection H as -> ->.
        split; [done | by exists post].
Qed.

Lemma containsb_spec (sub s : string) :
  containsb sub s = true ↔ contains sub s.
Proof.
  induction s as [|b s IH]; simpl; rewrite orb_true_iff.
  - rewrite starts_withb_spec. split.
    + intros [[post H]|?]; [|done]. exists "", post. exact H.
    + intros ([|x pre] & post & H).
      * left. by exists post.
      * by rewrite str_app_cons in H.
  - rewrite starts_withb_spec, IH. split.
    + intros [[post H]|(pre & post & ->)].
      * exists "", post. exact H.
      * by exists (String b pre), post.
    + intros ([|x pre] & post & H).
      * left. by exists post.
      * right. rewrite str_app_cons in H. injection H as -> ->.
        by exists pre, post.
Qed.

Lemma ends_withb_spec (suf s : string) :
  ends_withb suf s = true ↔ ends_with suf s.
Proof.
  induction s as [|b s IH]; simpl; rewrite orb_true_iff, bool_decide_eq_true.
  - split.
    + intros [<-|?]; [by exists "" | done].
    + intros ([|x pre] & H); [by left |]. by rewrite str_app_cons in H.
  - rewrite IH. split.
    + intros [<-|[pre ->]]; [by exists "" | by exists (String b pre)].
    + intros ([|x pre] & H); [by left |].
      right. rewrite str_app_cons in H. injection H as -> ->. by exists pre.
Qed.

Lemma not_contains (sub s : string) :
  containsb sub s = false → ¬ contains sub s.
Proof. intros Hb Hc. apply containsb_spec in Hc. congruence. Qed.

Lemma not_ends_with (suf s : string) :
  ends_withb suf s = false → ¬ ends_with suf s.
Proof. intros Hb Hc. apply ends_withb_spec in Hc. congruence. Qed.

(** ** Blocks of statements *)

Lemma run_cons (s : stmt) (body : list stmt) (note : string) :
  run (s :: body) note = run body (s note).
Proof. done. Qed.

Lemma run_app (body1 body2 : list stmt) (note : string) :
  run (body1 ++ body2) note = run body2 (run body1 note).
Proof. apply fold_left_app. Qed.

Lemma when_true (body : stmt) (note : string) : when true body note = body note.
Proof. done. Qed.

Lemma when_false (body : stmt) (note : string) : when false body note = note.
Proof. done. Qed.

Lemma appends_add (e : string) : appends (add e).
Proof. by exists e. Qed.

Lemma appends_when (c : bool) (body : stmt) :
  appends body → appends (when c body).
Proof.
  intros [x Hx]. exists (if c then x else ""). intros note.
  unfold when. destruct c; [done | by rewrite str_app_nil_r].
Qed.

Lemma appends_if_else (c : bool) (s1 s2 : stmt) :
  appends s1 → appends s2 → appends (if_else c s1 s2).
Proof.
  intros [x1 H1] [x2 H2]. exists (if c then x1 else x2). intros note.
  unfold if_else. by destruct c.
Qed.

Lemma appends_run (body : list stmt) :
  Forall appends body → appends (run body).
Proof.
  induction 1 as [|s body [x Hx] _ [y Hy]].
  - exists "". intros note. by rewrite str_app_nil_r.
  - exists (x +:+ y). intros note.
    by rewrite run_cons, Hy, Hx, str_app_assoc.
Qed.

Create HintDb appends discriminated.
#[local] Hint Resolve appends_add appends_when appends_if_else : appends.

Ltac solve_appends :=
  repeat (apply Forall_cons_2; [ solve [auto with appends] |]);
  apply Forall_nil_2.

Lemma contains_run (sub : string) (body : list stmt) (note : string) :
  Forall appends body → contains sub note → contains sub (run body note).
Proof.
  intros Hb Hc. destruct (appends_run body Hb) as [x ->].
  by apply contains_app_l.
Qed.

Lemma contains_run_add (sub e : string) (body : list stmt) (note : string) :
  Forall appends body → contains sub e →
  contains sub (run (add e :: body) note).
Proof.
  intros Hb Hc. rewrite run_cons. apply contains_run; [done |].
  by apply contains_app_r.
Qed.

Lemma starts_with_run (p : string) (body : list stmt) (note : string) :
  Forall appends body → starts_with p note → starts_with p (run body note).
Proof.
  intros Hb [post ->]. destruct (appends_run body Hb) as [x ->].
  exists (post +:+ x). by rewrite str_app_assoc.
Qed.

(** ** Field store *)

Lemma get_field_present `{PyRuntime} (self : template) (field_name : string)
    (v : value) :
  fields self !! field_name = Some v →
  ∀ default, get_field self field_name default = v.
Proof. intros Hv default. unfold get_field. by rewrite Hv. Qed.

Lemma get_field_absent `{PyRuntime} (self : template) (field_name : string) :
  fields self !! field_name = None →
  ∀ default, get_field self field_name default = default.
Proof. intros Hv default. unfold get_field. by rewrite Hv. Qed.

Lemma truthy_false_iff (v : value) : truthy v = false ↔ falsy v.
Proof.
  unfold falsy. destruct v as [|s|items]; simpl.
  - split; [by left | done].
  - rewrite negb_false_iff, bool_decide_eq_true. split.
    + intros ->. right. by left.
    + by intros [?|[[= ->]|?]].
  - rewrite negb_false_iff, bool_decide_eq_true. split.
    + intros ->. right. by right.
    + by intros [?|[?|[= ->]]].
Qed.

Lemma truthy_list (items : list string) :
  items ≠ [] → truthy (VList items) = true.
Proof. intros Hne. simpl. by rewrite bool_decide_eq_false_2. Qed.

Lemma truthy_str (s : string) : s ≠ "" → truthy (VStr s) = true.
Proof. intros Hne. simpl. by rewrite bool_decide_eq_false_2. Qed.

(** ** Validation *)

Lemma validate_loop_spec (flds : gmap string value) (required : list string)
    (missing_fields : list string) :
  validate_loop flds required missing_fields
  = Ok (missing_fields ++ filter (absent_or_falsy flds) required).
Proof.
  revert missing_fields.
  induction required as [|field rest IH]; intros missing_fields; simpl.
  - by rewrite app_nil_r.
  - rewrite filter_cons. unfold dict_contains, dict_getitem.
    destruct (flds !! field) as [v|] eqn:Hv; simpl.
    + destruct (truthy v) eqn:Ht; simpl; rewrite IH.
      * rewrite decide_False; [done |].
        unfold absent_or_falsy. rewrite Hv, <- truthy_false_iff. congruence.
      * rewrite decide_True, <- app_assoc; [done |].
        unfold absent_or_falsy. rewrite Hv. by apply truthy_false_iff.
    + rewrite IH, decide_True, <- app_assoc; [done |].
      unfold absent_or_falsy. by rewrite Hv.
Qed.

Lemma validate_eq `{PyRuntime} (self : template) :
  let missing :=
    filter (absent_or_falsy (fields self)) (get_required_fields (cls self)) in
  validate self = Ok (bool_decide (missing = []), missing).
Proof.
  intros missing. unfold validate, validate_with.
  rewrite validate_loop_spec. simpl. fold missing.
  do 2 f_equal. by destruct missing.
Qed.

(** C1.  For every class, [validate] returns [(ok, missing)] where
    [missing] is the list of required fields that are absent from the store
    or bound to a falsy value, in the order in which the class declares
    them, and [ok] is true exactly when [missing] is empty. *)
Theorem validate_reports_missing_required `{PyRuntime} (self : template) :
  let missing :=
    filter (absent_or_falsy (fields self)) (get_required_fields (cls self)) in
  validate self = Ok (bool_decide (missing = []), missing)
  ∧ (∀ field, field ∈ missing ↔
       field ∈ get_required_fields (cls self)
       ∧ (fields self !! field = None
          ∨ ∃ v, fields self !! field = Some v ∧ falsy v))
  ∧ missing `sublist_of` get_required_fields (cls self).
Proof.
  intros missing. split; [|split].
  - apply validate_eq.
  - intros field. unfold missing. rewrite list_elem_of_filter.
    unfold absent_or_falsy. rewrite (comm (∧)).
    destruct (fields self !! field) as [v|]; split.
    + intros [Hr Hf]. split; [done |]. right. by exists v.
    + intros [Hr [?|(v' & [= <-] & Hf)]]; done.
    + intros [Hr _]. split; [done | by left].
    + by intros [Hr _].
  - apply sublist_filter.
Qed.

(** C4.  On a handoff template on which only [patient_name] was set, to
    ["Jane Smith"], [validate] returns [False] with the four other required
    fields, in order. *)
Theorem validate_handoff_only_patient_name `{PyRuntime}
    (now0 now1 now : datetime) :
  validate (set_field (__init__ EpicHandoffTemplate now0 now1)
              "patient_name" (VStr "Jane Smith") now)
  = Ok (false,
        [ "patient_mrn"; "patient_location"; "primary_diagnosis";
          "active_issues" ]).
Proof. reflexivity. Qed.

(** C7.  Reading a field right after setting it gives back the value that
    was set, whatever the template, the name, the value and the default. *)
Theorem get_field_after_set_field `{PyRuntime} (self : template)
    (field_name : string) (v default : value) (now : datetime) :
  get_field (set_field self field_name v now) field_name default = v.
Proof. unfold get_field, set_field. simpl. by rewrite lookup_insert_eq. Qed.

(** C9.  [get_field] returns the stored value whenever the key is in the
    store, also when that value is falsy, and the default when the key is
    not; so a result that differs from what is stored means the key is
    absent. *)
Theorem get_field_default_only_when_absent `{PyRuntime} (self : template)
    (field_name : string) (default : value) :
  (∀ v, fields self !! field_name = Some v →
        get_field self field_name default = v)
  ∧ (fields self !! field_name = None →
     get_field self field_name default = default)
  ∧ (∀ v now, falsy v →
       get_field (set_field self field_name v now) field_name default = v).
Proof.
  split; [|split].
  - intros v Hv. by apply get_field_present.
  - intros Hv. by apply get_field_absent.
  - intros v now _. unfold get_field, set_field. simpl.
    by rewrite lookup_insert_eq.
Qed.

Lemma get_field_default_only_when_absent_witness :
  let self := sample ConsultNoteTemplate [("patient_name", VStr "")] in
  fields self !! "patient_name" = Some (VStr "")
  ∧ @get_field text_runtime self "patient_name" NOT_PROVIDED = VStr ""
  ∧ fields self !! "patient_mrn" = None
  ∧ @get_field text_runtime self "patient_mrn" NOT_PROVIDED = NOT_PROVIDED.
Proof.
  intros self.
  destruct (@get_field_default_only_when_absent text_runtime self
              "patient_name" NOT_PROVIDED) as (Hp & _ & _).
  destruct (@get_field_default_only_when_absent text_runtime self
              "patient_mrn" NOT_PROVIDED) as (_ & Ha & _).
  split; [reflexivity |]. split; [apply Hp; reflexivity |].
  split; [reflexivity |]. apply Ha; reflexivity.
Defined.

(** ** Method calls *)

Lemma validate_ok `{PyRuntime} (self : template) : ∃ r, validate self = Ok r.
Proof. eexists. apply validate_eq. Qed.

Lemma exec_ok `{PyRuntime} (c : call) (now : datetime) (self : template) :
  ∃ r, exec c now self = Ok r.
Proof.
  destruct c; simpl; eauto.
  destruct (validate_ok self) as [r ->]. simpl. eauto.
Qed.

Lemma exec_frame `{PyRuntime} (c : call) (now : datetime)
    (self self' : template) (r : returned) :
  exec c now self = Ok (r, self') →
  cls self' = cls self
  ∧ created_date self' = created_date self
  ∧ (if mutating c then last_modified self' = now else self' = self).
Proof.
  destruct c; simpl; try (intros [= <- <-]; done).
  destruct (validate_ok self) as [v ->]. simpl. by intros [= <- <-].
Qed.

(** C10.  No call changes the creation timestamp, over a single call and
    over any session; [set_field], [set_multiple_fields] and [clear] set
    the last-modified timestamp to the time they run at; [get_field],
    [validate], [export_to_dict] and [format_note] leave the instance as it
    was, timestamps and field store included. *)
Theorem timestamps_frame `{PyRuntime} (self : template) :
  (∀ c now r self',
     exec c now self = Ok (r, self') →
     created_date self' = created_date self
     ∧ (mutating c = true → last_modified self' = now)
     ∧ (mutating c = false → self' = self))
  ∧ (∀ calls self',
       exec_all calls self = Ok self' →
       created_date self' = created_date self)
  ∧ (∀ field_name v field_dict default,
       mutating (Call_set_field field_name v) = true
       ∧ mutating (Call_set_multiple_fields field_dict) = true
       ∧ mutating Call_clear = true
       ∧ mutating (Call_get_field field_name default) = false
       ∧ mutating Call_validate = false
       ∧ mutating Call_export_to_dict = false
       ∧ mutating Call_format_note = false).
Proof.
  split; [|split].
  - intros c now r self' He.
    destruct (exec_frame c now self self' r He) as (_ & Hc & Hm).
    split; [done |]. destruct (mutating c); naive_solver.
  - intros calls. revert self.
    induction calls as [|[c now] rest IH]; intros self self'; simpl.
    + by intros [= ->].
    + destruct (exec c now self) as [[r self1]|e] eqn:He; simpl; [|done].
      intros Hrest. rewrite (IH _ _ Hrest).
      by destruct (exec_frame c now self self1 r He) as (_ & Hc & _).
  - done.
Qed.

Lemma timestamps_frame_witness :
  let self := sample EpicHandoffTemplate [] in
  let self' := @set_field text_runtime self "patient_name"
                 (VStr "Jane Smith") "2025-10-21T08:00:00" in
  created_date self' = created_date self
  ∧ last_modified self' = "2025-10-21T08:00:00".
Proof.
  intros self self'.
  destruct (@timestamps_frame text_runtime self) as (Hone & _ & _).
  destruct (Hone (Call_set_field "patient_name" (VStr "Jane Smith"))
              "2025-10-21T08:00:00" RNone self' eq_refl) as (Hc & Hm & _).
  split; [exact Hc | exact (Hm eq_refl)].
Defined.

(** ** The factory *)

Lemma keys_templates : keys templates = ["consult"; "handoff"; "operative"].
Proof. done. Qed.

Lemma literal_getitem_ok {V} (d : list (string * V)) (key : string) :
  key ∈ keys d → ∃ v, literal_getitem d key = Ok v ∧ (key, v) ∈ d.
Proof.
  unfold keys. induction d as [|[k v] d IH]; simpl.
  - by intros ?%elem_of_nil.
  - intros Hin. case_bool_decide as Hk.
    + subst. exists v. split; [done | left].
    + apply elem_of_cons in Hin as [->|Hin]; [done |].
      destruct (IH Hin) as (v' & -> & Hv'). exists v'. split; [done |].
      by right.
Qed.

(** C6.  [create_template] raises exactly when the lowered name is none of
    [consult], [handoff], [operative], and the error then names these three;
    otherwise it returns a fresh, empty instance of the class the name
    stands for.  No call on an instance raises. *)
Theorem create_template_only_failure `{PyRuntime} (template_type : string)
    (now0 now1 : datetime) :
  (lower template_type ∉ ["consult"; "handoff"; "operative"] ↔
     ∃ e, create_template template_type now0 now1 = Raise e)
  ∧ (lower template_type ∉ ["consult"; "handoff"; "operative"] →
     create_template template_type now0 now1
     = Raise (ValueError
                ("Unknown template type: " +:+ lower template_type
                   +:+ ". Valid types are: consult, handoff, operative")))
  ∧ (lower template_type ∈ ["consult"; "handoff"; "operative"] →
     ∃ c, (lower template_type, c) ∈ templates
          ∧ create_template template_type now0 now1
            = Ok (__init__ c now0 now1))
  ∧ (∀ c now self, ∃ r, exec c now self = Ok r).
Proof.
  assert (Hbad : lower template_type ∉ ["consult"; "handoff"; "operative"] →
     create_template template_type now0 now1
     = Raise (ValueError
                ("Unknown template type: " +:+ lower template_type
                   +:+ ". Valid types are: consult, handoff, operative"))).
  { intros Hn. unfold create_template. rewrite keys_templates.
    rewrite bool_decide_eq_false_2 by done. simpl.
    by rewrite !str_app_assoc. }
  assert (Hgood : lower template_type ∈ ["consult"; "handoff"; "operative"] →
     ∃ c, (lower template_type, c) ∈ templates
          ∧ create_template template_type now0 now1
            = Ok (__init__ c now0 now1)).
  { intros Hin. unfold create_template. rewrite keys_templates.
    rewrite bool_decide_eq_true_2 by done. cbv zeta. cbn [negb].
    destruct (literal_getitem_ok templates (lower template_type))
      as (c & -> & Hc); [by rewrite keys_templates |].
    by exists c. }
  split; [|split; [|split]]; try done.
  - split.
    + intros Hn. rewrite (Hbad Hn). eauto.
    + intros [e He] Hin. destruct (Hgood Hin) as (c & _ & Hc). congruence.
  - intros c now self. apply exec_ok.
Qed.

Lemma create_template_only_failure_witness :
  @create_template text_runtime "foo" sample_time sample_time
  = Raise (ValueError
             "Unknown template type: foo. Valid types are: consult, handoff, operative")
  ∧ @create_template text_runtime "Handoff" sample_time sample_time
    = Ok (@__init__ text_runtime EpicHandoffTemplate sample_time sample_time).
Proof.
  destruct (@create_template_only_failure text_runtime "foo"
              sample_time sample_time) as (_ & Hbad & _).
  destruct (@create_template_only_failure text_runtime "Handoff"
              sample_time sample_time) as (_ & _ & Hgood & _).
  split.
  - apply Hbad. vm_compute. intros Hin.
    repeat (apply elem_of_cons in Hin as [Hin|Hin]; [discriminate Hin |]).
    by apply elem_of_nil in Hin.
  - destruct Hgood as (c & Hc & ->).
    + vm_compute. right. left.
    + vm_compute in Hc. f_equal. f_equal.
      repeat (apply elem_of_cons in Hc as [Hc|Hc]; [by injection Hc |]).
      by apply elem_of_nil in Hc.
Defined.

(** ** Rendering *)

Lemma contains_run_skip (sub : string) (s : stmt) (body : list stmt)
    (note : string) :
  contains sub (run body (s note)) → contains sub (run (s :: body) note).
Proof. done. Qed.

(** Walks down a block to the first [note += e] whose text is the one
    looked for, entering the branches whose test is decided. *)
Ltac find_stmt :=
  lazymatch goal with
  | |- contains _ (run (add _ :: _) _) =>
      first [ apply contains_run_add; [ solve_appends | apply contains_refl ]
            | apply contains_run_skip; find_stmt ]
  | |- contains _ (run (when ?c ?s :: ?body) ?note) =>
      first [ change (run (when c s :: body) note) with (run (s :: body) note);
              find_stmt
            | apply contains_run_skip; find_stmt ]
  | |- contains _ (run (if_else ?c ?s1 ?s2 :: ?body) ?note) =>
      first [ change (run (if_else c s1 s2 :: body) note)
                with (run (s1 :: body) note);
              find_stmt
            | change (run (if_else c s1 s2 :: body) note)
                with (run (s2 :: body) note);
              find_stmt
            | apply contains_run_skip; find_stmt ]
  | |- contains _ (run (_ :: _) _) => apply contains_run_skip; find_stmt
  end.

Lemma placeholders_cover (c : template_class) :
  (placeholders c).*1 = get_required_fields c.
Proof. by destruct c. Qed.

Lemma placeholder_line_marked (label : string) :
  contains "[NOT PROVIDED]" (placeholder_line label).
Proof. by exists (label +:+ ": "), nl; rewrite !str_app_assoc. Qed.

Lemma placeholder_section_marked (title : string) :
  contains "[NOT PROVIDED]" (placeholder_section title).
Proof.
  exists (title +:+ ":" +:+ nl), (nl +:+ nl).
  unfold placeholder_section. by rewrite !str_app_assoc.
Qed.

Lemma placeholders_marked (c : template_class) (field text : string) :
  (field, text) ∈ placeholders c → contains "[NOT PROVIDED]" text.
Proof.
  intros Hin. destruct c; simpl in Hin;
    repeat (apply elem_of_cons in Hin as [[= -> ->]|Hin];
            [ first [ apply placeholder_line_marked
                    | apply placeholder_section_marked ] |]);
    by apply elem_of_nil in Hin.
Qed.

Ltac each_entry Hin tac :=
  simpl in Hin;
  repeat (apply elem_of_cons in Hin as [[= -> ->]|Hin]; [ tac |]);
  by apply elem_of_nil in Hin.

Lemma consult_absent_rendered `{PyRuntime} (self : template)
    (now : datetime) (field text : string) :
  (field, text) ∈ placeholders ConsultNoteTemplate →
  fields self !! field = None →
  contains text (ConsultNoteTemplate.format_note self now).
Proof.
  intros Hin Habs. unfold ConsultNoteTemplate.format_note.
  each_entry Hin ltac:(rewrite !(get_field_absent self _ Habs); find_stmt).
Qed.

Lemma handoff_absent_rendered `{PyRuntime} (self : template)
    (now : datetime) (field text : string) :
  (field, text) ∈ placeholders EpicHandoffTemplate →
  fields self !! field = None →
  contains text (EpicHandoffTemplate.format_note self now).
Proof.
  intros Hin Habs. unfold EpicHandoffTemplate.format_note.
  each_entry Hin ltac:(rewrite !(get_field_absent self _ Habs); find_stmt).
Qed.

Lemma operative_absent_rendered `{PyRuntime} (self : template)
    (now : datetime) (field text : string) :
  (field, text) ∈ placeholders OperativeReportTemplate →
  fields self !! field = None →
  contains text (OperativeReportTemplate.format_note self now).
Proof.
  intros Hin Habs. unfold OperativeReportTemplate.format_note.
  each_entry Hin ltac:(rewrite !(get_field_absent self _ Habs); find_stmt).
Qed.

(** An absent required field has its placeholder text in the note. *)
Lemma absent_required_placeholder `{PyRuntime} (self : template)
    (now : datetime) (field : string) :
  field ∈ get_required_fields (cls self) →
  fields self !! field = None →
  ∃ text, (field, text) ∈ placeholders (cls self)
          ∧ contains "[NOT PROVIDED]" text
          ∧ contains text (format_note self now).
Proof.
  intros Hreq Habs. rewrite <- placeholders_cover in Hreq.
  apply list_elem_of_fmap in Hreq as ([field' text] & -> & Hin).
  exists text. split; [done |]. split; [by eapply placeholders_marked |].
  unfold format_note. simpl in Habs.
  destruct (cls self).
  - by apply consult_absent_rendered with field'.
  - by apply handoff_absent_rendered with field'.
  - by apply operative_absent_rendered with field'.
Qed.

(** C2, counterexample to the claim as stated.  A consult template with
    every required field set, [patient_name] to the empty string: the field
    is falsy, yet the note carries no placeholder at all, and the line of
    the field shows the empty value. *)
Lemma empty_required_field_not_marked :
  let self :=
    sample ConsultNoteTemplate
      [ ("patient_name", VStr "");
        ("patient_mrn", VStr "12345678");
        ("date_of_consult", VStr "2025-10-20");
        ("consulting_service", VStr "Cardiology");
        ("reason_for_consult", VStr "Chest pain");
        ("history_of_present_illness", VStr "Three days of chest pain");
        ("assessment", VStr "Likely angina");
        ("recommendations", VList ["A"; "B"]) ] in
  let note := @format_note text_runtime self sample_time in
  "patient_name" ∈ get_required_fields (cls self)
  ∧ fields self !! "patient_name" = Some (VStr "")
  ∧ falsy (VStr "")
  ∧ ¬ contains "[NOT PROVIDED]" note
  ∧ contains ("Name: " +:+ nl +:+ "MRN: 12345678" +:+ nl) note.
Proof.
  intros self note. split; [left |]. split; [reflexivity |].
  split; [right; by left |]. split.
  - apply not_contains. vm_compute. reflexivity.
  - apply containsb_spec. vm_compute. reflexivity.
Qed.


(** ** Banners and signature *)

Lemma starts_with_header (p e1 e2 e3 : string) (body : list stmt) :
  Forall appends body →
  (e1 +:+ e2) +:+ e3 = p →
  starts_with p (run (assign e1 :: add e2 :: add e3 :: body) "").
Proof.
  intros Hb <-. rewrite !run_cons. apply starts_with_run; [done |].
  exists "". unfold add, assign. by rewrite str_app_nil_r.
Qed.

Lemma header_banner_rendered `{PyRuntime} (self : template) (now : datetime) :
  starts_with (header_banner (cls self)) (format_note self now).
Proof.
  unfold format_note, header_banner.
  destruct (cls self);
    (apply starts_with_header;
     [ solve_appends | simpl banner_title; by rewrite !str_app_assoc ]).
Qed.

(** The last statement of a block decides how the note ends. *)
Lemma ends_with_run_last (e : string) (body : list stmt) (note : string) :
  ends_with e (run (body ++ [add e]) note).
Proof. rewrite run_app. by exists (run body note). Qed.

Lemma signature_footer_ends (stamp note : string) :
  signature_footer stamp note → ends_with (stamp +:+ nl) note.
Proof.
  intros (body & signers & ->).
  exists (body +:+ (nl +:+ str_mul "-" 80 +:+ nl) +:+ signers +:+ "Date: ").
  by rewrite !str_app_assoc.
Qed.

(** A signature block whose first and last lines are fixed and whose middle
    lines are appended by the statements in between. *)
Lemma signature_footer_run (stamp : string) (signers : list stmt)
    (note : string) :
  Forall appends signers →
  signature_footer stamp
    (run (add ((nl +:+ str_mul "-" 80) +:+ nl) :: signers
            ++ [add ("Date: " +:+ stamp +:+ nl)]) note).
Proof.
  intros Hs. rewrite run_cons, run_app.
  destruct (appends_run signers Hs) as [x ->].
  exists note, x. unfold run, add. simpl. by rewrite !str_app_assoc.
Qed.

Ltac to_signature :=
  lazymatch goal with
  | |- signature_footer _ (run (add ((nl +:+ str_mul "-" 80) +:+ nl) :: _) _) =>
      idtac
  | |- signature_footer _ (run (_ :: _) _) => rewrite run_cons; to_signature
  end.

Lemma consult_signature `{PyRuntime} (self : template) (now : datetime) :
  signature_footer (strftime now) (ConsultNoteTemplate.format_note self now).
Proof.
  unfold ConsultNoteTemplate.format_note. to_signature.
  apply (signature_footer_run _ [_; _]). solve_appends.
Qed.

Lemma operative_signature `{PyRuntime} (self : template) (now : datetime) :
  signature_footer (strftime now)
    (OperativeReportTemplate.format_note self now).
Proof.
  unfold OperativeReportTemplate.format_note. to_signature.
  apply (signature_footer_run _ [_; _]). solve_appends.
Qed.

Ltac to_last :=
  lazymatch goal with
  | |- ends_with _ (run [_] _) => idtac
  | |- ends_with _ (run (_ :: _) _) => rewrite run_cons; to_last
  end.

Lemma handoff_closing `{PyRuntime} (self : template) (now : datetime) :
  let note := EpicHandoffTemplate.format_note self now in
  ends_with (str_mul "=" 80 +:+ nl) note
  ∧ contains ("Handoff Date/Time: " +:+ strftime now +:+ nl) note.
Proof.
  intros note. unfold note, EpicHandoffTemplate.format_note. split.
  - to_last. apply (ends_with_run_last _ []).
  - find_stmt.
Qed.

(** How each note opens and how it ends. *)
Lemma banner_and_closing `{PyRuntime} (self : template)
    (now : datetime) :
  let note := format_note self now in
  starts_with (header_banner (cls self)) note
  ∧ match cls self with
    | EpicHandoffTemplate =>
        ends_with (str_mul "=" 80 +:+ nl) note
        ∧ contains ("Handoff Date/Time: " +:+ strftime now +:+ nl) note
    | ConsultNoteTemplate | OperativeReportTemplate =>
        signature_footer (strftime now) note
    end.
Proof.
  intros note. split; [apply header_banner_rendered |].
  unfold note, format_note. destruct (cls self).
  - apply consult_signature.
  - apply handoff_closing.
  - apply operative_signature.
Qed.

(** C3, counterexample to the claim as stated.  The note of an empty
    handoff template has no signature footer: its last line is not a line
    with the time of rendering, and that time occurs nowhere after the
    first section title. *)
Lemma handoff_without_signature_footer :
  let self := sample EpicHandoffTemplate [] in
  let stamp := @strftime text_runtime sample_time in
  let note := @format_note text_runtime self sample_time in
  ¬ signature_footer stamp note
  ∧ ¬ ends_with (stamp +:+ nl) note
  ∧ ∃ pre post,
      note = pre +:+ "PRIMARY DIAGNOSIS:" +:+ post
      ∧ contains stamp pre ∧ ¬ contains stamp post.
Proof.
  intros self stamp note.
  assert (Hends : ¬ ends_with (stamp +:+ nl) note).
  { apply not_ends_with. vm_compute. reflexivity. }
  split; [by intros ?%signature_footer_ends |]. split; [done |].
  exists (header_banner EpicHandoffTemplate
          +:+ "Patient: [NOT PROVIDED]" +:+ nl
          +:+ "MRN: [NOT PROVIDED]" +:+ nl
          +:+ "Location: [NOT PROVIDED]" +:+ nl
          +:+ "Handoff Date/Time: " +:+ stamp +:+ nl +:+ nl),
         (nl +:+ "[NOT PROVIDED]" +:+ nl +:+ nl
          +:+ placeholder_section "ACTIVE ISSUES"
          +:+ str_mul "=" 80 +:+ nl).
  split; [vm_compute; reflexivity |]. split.
  - apply containsb_spec. vm_compute. reflexivity.
  - apply not_contains. vm_compute. reflexivity.
Qed.

(** ** List sections *)

Lemma str_mul_0 (s : string) : str_mul s 0 = "".
Proof. done. Qed.

Lemma format_list_section_list (title : string) (items : list string) :
  items ≠ [] →
  _format_list_section title (VList items) 0
  = section_of_lines title ((λ item, "- " +:+ item) <$> items).
Proof.
  intros Hne. unfold _format_list_section.
  by rewrite truthy_list.
Qed.

Lemma format_section_str `{PyRuntime} (title s : string) :
  s ≠ "" → _format_section title (VStr s) 0 = section_of_text title s.
Proof. intros Hne. unfold _format_section. by rewrite truthy_str. Qed.

Ltac list_entry self Hv Hne :=
  rewrite !(get_field_present self _ _ Hv);
  rewrite ?format_list_section_list, ?truthy_list by exact Hne;
  find_stmt.

Ltac text_entry self Hv Hne :=
  rewrite !(get_field_present self _ _ Hv);
  rewrite ?format_section_str, ?truthy_str by exact Hne;
  find_stmt.

Lemma consult_list_section `{PyRuntime} (self : template) (now : datetime)
    (field title : string) (items : list string) :
  (field, title) ∈ list_sections ConsultNoteTemplate →
  fields self !! field = Some (VList items) → items ≠ [] →
  contains (section_of_lines title ((λ item, "- " +:+ item) <$> items))
    (ConsultNoteTemplate.format_note self now).
Proof.
  intros Hin Hv Hne. unfold ConsultNoteTemplate.format_note.
  each_entry Hin ltac:(list_entry self Hv Hne).
Qed.

Lemma handoff_list_section `{PyRuntime} (self : template) (now : datetime)
    (field title : string) (items : list string) :
  (field, title) ∈ list_sections EpicHandoffTemplate →
  fields self !! field = Some (VList items) → items ≠ [] →
  contains (section_of_lines title ((λ item, "- " +:+ item) <$> items))
    (EpicHandoffTemplate.format_note self now).
Proof.
  intros Hin Hv Hne. unfold EpicHandoffTemplate.format_note.
  each_entry Hin ltac:(list_entry self Hv Hne).
Qed.

Lemma operative_list_section `{PyRuntime} (self : template) (now : datetime)
    (field title : string) (items : list string) :
  (field, title) ∈ list_sections OperativeReportTemplate →
  fields self !! field = Some (VList items) → items ≠ [] →
  contains (section_of_lines title ((λ item, "- " +:+ item) <$> items))
    (OperativeReportTemplate.format_note self now).
Proof.
  intros Hin Hv Hne. unfold OperativeReportTemplate.format_note.
  each_entry Hin ltac:(list_entry self Hv Hne).
Qed.

Lemma consult_text_section `{PyRuntime} (self : template) (now : datetime)
    (field title s : string) :
  (field, title) ∈ list_sections ConsultNoteTemplate →
  fields self !! field = Some (VStr s) → s ≠ "" →
  contains (section_of_text title s)
    (ConsultNoteTemplate.format_note self now).
Proof.
  intros Hin Hv Hne. unfold ConsultNoteTemplate.format_note.
  each_entry Hin ltac:(text_entry self Hv Hne).
Qed.

Lemma handoff_text_section `{PyRuntime} (self : template) (now : datetime)
    (field title s : string) :
  (field, title) ∈ list_sections EpicHandoffTemplate →
  fields self !! field = Some (VStr s) → s ≠ "" →
  contains (section_of_text title s)
    (EpicHandoffTemplate.format_note self now).
Proof.
  intros Hin Hv Hne. unfold EpicHandoffTemplate.format_note.
  each_entry Hin ltac:(text_entry self Hv Hne).
Qed.

Lemma operative_text_section `{PyRuntime} (self : template) (now : datetime)
    (field title s : string) :
  (field, title) ∈ list_sections OperativeReportTemplate →
  fields self !! field = Some (VStr s) → s ≠ "" →
  contains (section_of_text title s)
    (OperativeReportTemplate.format_note self now).
Proof.
  intros Hin Hv Hne. unfold OperativeReportTemplate.format_note.
  each_entry Hin ltac:(text_entry self Hv Hne).
Qed.

Lemma list_section_rendered `{PyRuntime} (self : template) (now : datetime)
    (field title : string) (items : list string) :
  (field, title) ∈ list_sections (cls self) →
  fields self !! field = Some (VList items) → items ≠ [] →
  contains (section_of_lines title ((λ item, "- " +:+ item) <$> items))
    (format_note self now).
Proof.
  unfold format_note. destruct (cls self).
  - apply consult_list_section.
  - apply handoff_list_section.
  - apply operative_list_section.
Qed.

Lemma text_section_rendered `{PyRuntime} (self : template) (now : datetime)
    (field title s : string) :
  (field, title) ∈ list_sections (cls self) →
  fields self !! field = Some (VStr s) → s ≠ "" →
  contains (section_of_text title s) (format_note self now).
Proof.
  unfold format_note. destruct (cls self).
  - apply consult_text_section.
  - apply handoff_text_section.
  - apply operative_text_section.
Qed.

(** C5, as the code has it.  In every class, a field that the renderer
    lays out as a list section and that holds a non-empty list of [N]
    strings is rendered as its title followed by [N] lines, the [i]-th
    being [- ] and the [i]-th item; the same field holding a non-empty
    string is rendered as its title followed by that string as one block.
    In particular a consult note with [recommendations = ["A", "B"]] has
    the title line [RECOMMENDATIONS:] followed by exactly the lines [- A]
    and [- B] and the blank line that ends the section. *)
Theorem list_field_rendered_as_bullets `{PyRuntime} (self : template)
    (now : datetime) :
  (∀ field title items,
     (field, title) ∈ list_sections (cls self) →
     fields self !! field = Some (VList items) → items ≠ [] →
     ∃ lines,
       length lines = length items
       ∧ (∀ i item, items !! i = Some item →
                    lines !! i = Some ("- " +:+ item))
       ∧ contains (title +:+ ":" +:+ nl +:+ join nl lines +:+ nl +:+ nl)
           (format_note self now))
  ∧ (∀ field title s,
       (field, title) ∈ list_sections (cls self) →
       fields self !! field = Some (VStr s) → s ≠ "" →
       contains (title +:+ ":" +:+ nl +:+ s +:+ nl +:+ nl)
         (format_note self now))
  ∧ (cls self = ConsultNoteTemplate →
     fields self !! "recommendations" = Some (VList ["A"; "B"]) →
     contains ("RECOMMENDATIONS:" +:+ nl +:+ "- A" +:+ nl +:+ "- B" +:+ nl
                 +:+ nl)
       (format_note self now)).
Proof.
  split; [|split].
  - intros field title items Hin Hv Hne.
    exists ((λ item, "- " +:+ item) <$> items).
    split; [by rewrite length_fmap |]. split.
    + intros i item Hi. by rewrite list_lookup_fmap, Hi.
    + by apply (list_section_rendered self now field).
  - intros field title s Hin Hv Hne.
    by apply (text_section_rendered self now field).
  - intros Hc Hv.
    apply (list_section_rendered self now "recommendations" "RECOMMENDATIONS"
             ["A"; "B"]); [|done..].
    rewrite Hc. simpl. do 2 right. left.
Qed.

(** C5, counterexample to the claim as stated.  [allergies] is not one of
    the fields laid out as a list section: a list stored in it is
    interpolated as one block of text, and no bullet line is rendered. *)
Lemma list_in_text_section_not_bulleted :
  let self :=
    sample ConsultNoteTemplate [("allergies", VList ["Penicillin"; "Latex"])] in
  let note := @format_note text_runtime self sample_time in
  fields self !! "allergies" = Some (VList ["Penicillin"; "Latex"])
  ∧ contains ("ALLERGIES:" +:+ nl +:+ "['Penicillin', 'Latex']" +:+ nl +:+ nl)
      note
  ∧ ¬ contains "- Penicillin" note
  ∧ ¬ contains "- Latex" note.
Proof.
  intros self note. split; [reflexivity |]. split; [|split].
  - apply containsb_spec. vm_compute. reflexivity.
  - apply not_contains. vm_compute. reflexivity.
  - apply not_contains. vm_compute. reflexivity.
Qed.

Lemma list_field_rendered_as_bullets_witness :
  let self :=
    sample ConsultNoteTemplate
      [ ("patient_name", VStr "John Doe");
        ("patient_mrn", VStr "12345678");
        ("date_of_consult", VStr "2025-10-20");
        ("consulting_service", VStr "Cardiology");
        ("reason_for_consult", VStr "Chest pain");
        ("history_of_present_illness", VStr "Three days of chest pain");
        ("assessment", VStr "Likely angina");
        ("recommendations", VList ["A"; "B"]);
        ("plan", VStr "Admit to telemetry") ] in
  let note := @format_note text_runtime self sample_time in
  contains ("RECOMMENDATIONS:" +:+ nl +:+ "- A" +:+ nl +:+ "- B" +:+ nl +:+ nl)
    note
  ∧ contains ("PLAN:" +:+ nl +:+ "Admit to telemetry" +:+ nl +:+ nl) note.
Proof.
  intros self note.
  destruct (@list_field_rendered_as_bullets text_runtime self sample_time)
    as (_ & Htext & Hrec).
  split.
  - apply Hrec; reflexivity.
  - apply (Htext "plan" "PLAN" "Admit to telemetry").
    + vm_compute. do 3 right. left.
    + reflexivity.
    + discriminate.
Defined.

(** ** Determinism *)

Lemma get_field_ext `{PyRuntime} (self1 self2 : template)
    (field_name : string) (default : value) :
  fields self1 = fields self2 →
  get_field self1 field_name default = get_field self2 field_name default.
Proof. intros Hf. unfold get_field. by rewrite Hf. Qed.

Lemma format_note_ext `{PyRuntime} (self1 self2 : template)
    (now1 now2 : datetime) :
  cls self1 = cls self2 → fields self1 = fields self2 →
  strftime now1 = strftime now2 →
  format_note self1 now1 = format_note self2 now2.
Proof.
  intros Hc Hf Hs. unfold format_note. rewrite <- Hc.
  destruct (cls self1);
    [ unfold ConsultNoteTemplate.format_note
    | unfold EpicHandoffTemplate.format_note
    | unfold OperativeReportTemplate.format_note ];
    unfold get_field; by rewrite Hf, Hs.
Qed.

(** A block in which one statement adds the line with the time of
    rendering, and no other statement depends on that time, yields the same
    text around the time whatever the time is. *)
Lemma stamp_skip `{PyRuntime} (s : stmt) (body : datetime → list stmt)
    (note : string) :
  (∃ pre post, ∀ now, run (body now) (s note) = pre +:+ strftime now +:+ post) →
  ∃ pre post, ∀ now, run (s :: body now) note = pre +:+ strftime now +:+ post.
Proof. done. Qed.

Lemma stamp_here `{PyRuntime} (label tail : string) (body : list stmt)
    (note : string) :
  Forall appends body →
  ∃ pre post, ∀ now,
    run (add (label +:+ strftime now +:+ tail) :: body) note
    = pre +:+ strftime now +:+ post.
Proof.
  intros Hb. destruct (appends_run body Hb) as [x Hx].
  exists (note +:+ label), (tail +:+ x). intros now.
  rewrite run_cons, Hx. unfold add. by rewrite !str_app_assoc.
Qed.

Ltac find_stamp :=
  first [ apply stamp_here; solve_appends
        | apply stamp_skip; find_stamp ].

Lemma format_note_around_stamp `{PyRuntime} (self : template) :
  ∃ pre post, ∀ now, format_note self now = pre +:+ strftime now +:+ post.
Proof.
  unfold format_note.
  destruct (cls self);
    [ unfold ConsultNoteTemplate.format_note
    | unfold EpicHandoffTemplate.format_note
    | unfold OperativeReportTemplate.format_note ];
    find_stamp.
Qed.

(** C8.  Two templates of the same class with the same field state render
    to the same text when the time of rendering reads the same, whatever
    their timestamps; and whatever the two times of rendering, the two
    texts are one fixed text around the rendered time and so differ in
    nothing but that time. *)
Theorem format_note_deterministic `{PyRuntime} (self1 self2 : template)
    (now1 now2 : datetime) :
  cls self1 = cls self2 →
  fields self1 = fields self2 →
  (strftime now1 = strftime now2 →
   format_note self1 now1 = format_note self2 now2)
  ∧ ∃ pre post,
      format_note self1 now1 = pre +:+ strftime now1 +:+ post
      ∧ format_note self2 now2 = pre +:+ strftime now2 +:+ post.
Proof.
  intros Hc Hf. split; [by apply format_note_ext |].
  destruct (format_note_around_stamp self1) as (pre & post & Hn).
  exists pre, post. split; [apply Hn |].
  by rewrite <- (format_note_ext self1 self2 now2 now2), Hn.
Qed.

Lemma format_note_deterministic_witness :
  let self1 := sample EpicHandoffTemplate [("patient_name", VStr "Jane Smith")] in
  let self2 :=
    @set_field text_runtime
      (@__init__ text_runtime EpicHandoffTemplate
         "2025-11-01T09:00:00" "2025-11-01T09:00:00")
      "patient_name" (VStr "Jane Smith") "2025-11-02T10:15:00" in
  @format_note text_runtime self1 "2025-11-03T07:45:10"
  = @format_note text_runtime self2 "2025-11-03T07:45:59".
Proof.
  intros self1 self2.
  destruct (@format_note_deterministic text_runtime self1 self2
              "2025-11-03T07:45:10" "2025-11-03T07:45:59") as [Heq _].
  - reflexivity.
  - vm_compute. reflexivity.
  - apply Heq. vm_compute. reflexivity.
Defined.

(** * Further properties of the code *)

(** ** The field store *)

(** X1.  Writing one field leaves every other field as it was, for readers
    of any default. *)
Theorem set_field_other_fields `{PyRuntime} (self : template)
    (field_name other : string) (v default : value) (now : datetime) :
  field_name ≠ other →
  get_field (set_field self field_name v now) other default
  = get_field self other default.
Proof.
  intros Hne. unfold get_field, set_field. simpl.
  by rewrite lookup_insert_ne.
Qed.

Lemma set_field_other_fields_witness :
  let self := sample EpicHandoffTemplate [("patient_mrn", VStr "87654321")] in
  @get_field text_runtime
    (@set_field text_runtime self "patient_name" (VStr "Jane Smith")
       sample_time)
    "patient_mrn" VNone
  = VStr "87654321".
Proof.
  intros self.
  rewrite (@set_field_other_fields text_runtime self "patient_name"
             "patient_mrn" (VStr "Jane Smith") VNone sample_time).
  - reflexivity.
  - discriminate.
Defined.

(** X2.  After a bulk write, a field named in the dictionary reads as the
    dictionary has it, and any other field reads as before. *)
Theorem get_field_after_set_multiple_fields `{PyRuntime} (self : template)
    (field_dict : gmap string value) (field_name : string) (default : value)
    (now : datetime) :
  get_field (set_multiple_fields self field_dict now) field_name default
  = match field_dict !! field_name with
    | Some v => v
    | None => get_field self field_name default
    end.
Proof.
  unfold get_field, set_multiple_fields. simpl. rewrite lookup_union.
  destruct (field_dict !! field_name) as [v|];
    by destruct (fields self !! field_name).
Qed.

Lemma template_eq `{PyRuntime} (a b : template) :
  cls a = cls b → fields a = fields b →
  created_date a = created_date b → last_modified a = last_modified b →
  a = b.
Proof. destruct a, b. simpl. by intros -> -> -> ->. Qed.

Lemma foldl_set_field `{PyRuntime} (entries : list (string * value))
    (self : template) (now : datetime) :
  NoDup entries.*1 →
  let self' := foldl (λ s e, set_field s e.1 e.2 now) self entries in
  cls self' = cls self
  ∧ created_date self' = created_date self
  ∧ fields self' = list_to_map entries ∪ fields self
  ∧ (entries ≠ [] → last_modified self' = now).
Proof.
  revert self.
  induction entries as [|[k v] entries IH]; intros self Hnd; simpl.
  - by rewrite (left_id ∅ (∪)).
  - apply NoDup_cons in Hnd as [Hk Hnd].
    destruct (IH (set_field self k v now) Hnd) as (Hc & Hd & Hf & Hm).
    split; [done |]. split; [done |]. split.
    + rewrite Hf. simpl. rewrite <- insert_union_r, insert_union_l; [done |].
      by apply not_elem_of_list_to_map_1.
    + intros _. destruct entries as [|e entries]; [done |]. by apply Hm.
Qed.

(** X3.  Writing the entries of a dictionary one by one with [set_field],
    in any order in which they are listed without repeating a key, leaves
    the template exactly as one [set_multiple_fields] with that dictionary
    does. *)
Theorem set_multiple_fields_as_set_field `{PyRuntime} (self : template)
    (entries : list (string * value)) (now : datetime) :
  NoDup entries.*1 → entries ≠ [] →
  foldl (λ s e, set_field s e.1 e.2 now) self entries
  = set_multiple_fields self (list_to_map entries) now.
Proof.
  intros Hnd Hne.
  destruct (foldl_set_field entries self now Hnd) as (Hc & Hd & Hf & Hm).
  apply template_eq; simpl; auto.
Qed.

Lemma set_multiple_fields_as_set_field_witness :
  let self := sample EpicHandoffTemplate [("patient_mrn", VStr "1")] in
  @set_field text_runtime
    (@set_field text_runtime self "patient_name" (VStr "Jane Smith")
       sample_time)
    "patient_mrn" (VStr "87654321") sample_time
  = @set_multiple_fields text_runtime self
      (list_to_map [ ("patient_name", VStr "Jane Smith");
                     ("patient_mrn", VStr "87654321") ])
      sample_time.
Proof.
  intros self.
  apply (@set_multiple_fields_as_set_field text_runtime self
           [ ("patient_name", VStr "Jane Smith");
             ("patient_mrn", VStr "87654321") ] sample_time).
  - refine (bool_decide_unpack _ _). vm_compute. exact I.
  - discriminate.
Defined.

(** X4.  A second write to a field leaves no trace of the first: the
    template is the one a single write of the last value gives. *)
Theorem set_field_overwrites `{PyRuntime} (self : template)
    (field_name : string) (v1 v2 : value) (now1 now2 : datetime) :
  set_field (set_field self field_name v1 now1) field_name v2 now2
  = set_field self field_name v2 now2.
Proof.
  apply template_eq; simpl; try done. apply insert_insert_eq.
Qed.

(** ** Validation *)

Lemma filter_ext_in {A} (P Q : A → Prop) `{!∀ x, Decision (P x)}
    `{!∀ x, Decision (Q x)} (l : list A) :
  (∀ x, x ∈ l → (P x ↔ Q x)) → filter P l = filter Q l.
Proof.
  induction l as [|a l IH]; intros Hext; [done |].
  rewrite !filter_cons, IH by (intros x Hx; apply Hext; by right).
  destruct (decide (P a)) as [Hp|Hp], (decide (Q a)) as [Hq|Hq];
    try done; exfalso; [apply Hq | apply Hp]; by apply (Hext a); [left |].
Qed.

Lemma filter_nil_iff_none {A} (P : A → Prop) `{!∀ x, Decision (P x)}
    (l : list A) :
  filter P l = [] ↔ ∀ x, x ∈ l → ¬ P x.
Proof.
  split.
  - intros Hnil x Hx Hp. by apply (filter_nil_not_elem_of P l x).
  - intros Hnone. induction l as [|a l IH]; [done |].
    rewrite filter_cons, decide_False by (apply Hnone; left).
    apply IH. intros x Hx. apply Hnone. by right.
Qed.

Lemma not_absent_or_falsy (flds : gmap string value) (field : string) :
  ¬ absent_or_falsy flds field
  ↔ ∃ v, flds !! field = Some v ∧ truthy v = true.
Proof.
  unfold absent_or_falsy. destruct (flds !! field) as [v|].
  - rewrite <- truthy_false_iff. split.
    + intros Hn. exists v. split; [done |]. by destruct (truthy v).
    + intros (w & [= <-] & Ht). congruence.
  - split; [by intros [] | by intros (v & ? & _)].
Qed.

Lemma required_not_empty (c : template_class) : get_required_fields c ≠ [].
Proof. by destruct c. Qed.

(** X5.  [validate] passes exactly when every required field of the class
    is in the store with a truthy value. *)
Theorem validate_passes_iff `{PyRuntime} (self : template) :
  validate self = Ok (true, [])
  ↔ ∀ field, field ∈ get_required_fields (cls self) →
             ∃ v, fields self !! field = Some v ∧ truthy v = true.
Proof.
  rewrite validate_eq.
  set (missing := filter _ _). split.
  - intros [= _ Hm] field Hreq. apply not_absent_or_falsy.
    by apply (proj1 (filter_nil_iff_none _ _) Hm).
  - intros Hall.
    assert (missing = []) as ->; [|done].
    apply filter_nil_iff_none. intros field Hreq.
    by apply not_absent_or_falsy, Hall.
Qed.

(** X6.  How a write changes the validation result.  Writing a truthy
    value takes the field off the missing list and leaves the rest of the
    list as it was; writing a field the class does not require leaves the
    list as it was, whatever the value; writing a falsy value to a required
    field puts it on the list. *)
Theorem validate_after_set_field `{PyRuntime} (self : template)
    (field_name : string) (v : value) (now : datetime)
    (ok ok' : bool) (missing missing' : list string) :
  validate self = Ok (ok, missing) →
  validate (set_field self field_name v now) = Ok (ok', missing') →
  (truthy v = true → missing' = filter (λ g, g ≠ field_name) missing)
  ∧ (field_name ∉ get_required_fields (cls self) → missing' = missing)
  ∧ (truthy v = false → field_name ∈ get_required_fields (cls self) →
     field_name ∈ missing').
Proof.
  rewrite !validate_eq. simpl. intros [= _ <-] [= _ <-].
  assert (Hset : ∀ g,
    absent_or_falsy (<[field_name:=v]> (fields self)) g
    ↔ if decide (g = field_name) then falsy v
      else absent_or_falsy (fields self) g).
  { intros g. unfold absent_or_falsy. rewrite lookup_insert.
    destruct (decide (g = field_name)) as [->|Hne].
    - by rewrite decide_True.
    - by rewrite decide_False by done. }
  split; [|split].
  - intros Ht. rewrite list_filter_filter. apply list_filter_iff.
    intros g. rewrite Hset. destruct (decide (g = field_name)) as [->|Hne].
    + rewrite <- truthy_false_iff. split; [congruence | by intros [? _]].
    + split; [done | by intros [_ ?]].
  - intros Hnot. apply filter_ext_in. intros g Hg. rewrite Hset.
    by rewrite decide_False by (by intros ->).
  - intros Ht Hreq. apply list_elem_of_filter. split; [|done].
    apply Hset. rewrite decide_True by done. by apply truthy_false_iff.
Qed.

Lemma validate_after_set_field_witness :
  let self := sample EpicHandoffTemplate [] in
  let self' := @set_field text_runtime self "patient_name"
                 (VStr "Jane Smith") sample_time in
  ∃ ok' missing',
    @validate text_runtime self' = Ok (ok', missing')
    ∧ missing'
      = [ "patient_mrn"; "patient_location"; "primary_diagnosis";
          "active_issues" ].
Proof.
  intros self self'. eexists _, _. split; [reflexivity |].
  destruct (@validate_after_set_field text_runtime self "patient_name"
              (VStr "Jane Smith") sample_time false false
              (get_required_fields EpicHandoffTemplate)
              [ "patient_mrn"; "patient_location"; "primary_diagnosis";
                "active_issues" ]) as (Ht & _ & _);
    [reflexivity | reflexivity |].
  rewrite (Ht eq_refl). reflexivity.
Defined.

(** ** Fresh and cleared templates *)

Lemma filter_absent_empty (required : list string) :
  filter (absent_or_falsy ∅) required = required.
Proof.
  induction required as [|field rest IH]; [done |].
  rewrite filter_cons, IH, decide_True; [done |].
  unfold absent_or_falsy. by rewrite lookup_empty.
Qed.

Lemma validate_empty_store `{PyRuntime} (self : template) :
  fields self = ∅ →
  validate self = Ok (false, get_required_fields (cls self)).
Proof.
  intros He. rewrite validate_eq, He, filter_absent_empty.
  by rewrite bool_decide_eq_false_2 by apply required_not_empty.
Qed.

(** X7.  After [clear] nothing of the old store is left: every field reads
    as its default, validation fails with every required field of the
    class, in order, and the note is the one of a fresh instance of the
    class. *)
Theorem clear_forgets_fields `{PyRuntime} (self : template)
    (now : datetime) :
  (∀ field_name default,
     get_field (clear self now) field_name default = default)
  ∧ validate (clear self now)
    = Ok (false, get_required_fields (cls self))
  ∧ (∀ now0 now1 now',
       format_note (clear self now) now'
       = format_note (__init__ (cls self) now0 now1) now').
Proof.
  split; [|split].
  - intros field_name default. unfold get_field, clear. simpl.
    by rewrite lookup_empty.
  - by apply (validate_empty_store (clear self now)).
  - intros now0 now1 now'. by apply format_note_ext.
Qed.

(** X8.  A name the factory recognises gives an instance of the class the
    table has for the lowered name, with an empty store; validation on it
    fails with every required field of that class. *)
Theorem create_template_fresh `{PyRuntime} (template_type : string)
    (now0 now1 : datetime) (self : template) :
  create_template template_type now0 now1 = Ok self →
  (lower template_type, cls self) ∈ templates
  ∧ fields self = ∅
  ∧ created_date self = now0 ∧ last_modified self = now1
  ∧ validate self = Ok (false, get_required_fields (cls self)).
Proof.
  unfold create_template. cbv zeta.
  case_bool_decide as Hin; cbn [negb]; [|done].
  destruct (literal_getitem_ok templates (lower template_type) Hin)
    as (c & -> & Hc).
  intros [= <-]. simpl. repeat (split; [done |]).
  by apply (validate_empty_store (__init__ c now0 now1)).
Qed.

Lemma create_template_fresh_witness :
  ∃ self,
    @create_template text_runtime "Operative" sample_time sample_time
    = Ok self
    ∧ cls self = OperativeReportTemplate
    ∧ @validate text_runtime self
      = Ok (false, get_required_fields OperativeReportTemplate).
Proof.
  eexists. split; [reflexivity |].
  destruct (@create_template_fresh text_runtime "Operative" sample_time
              sample_time _ eq_refl) as (_ & _ & _ & _ & Hv).
  split; [reflexivity | exact Hv].
Defined.

(** ** Export *)

Lemma validate_ext `{PyRuntime} (self1 self2 : template) :
  cls self1 = cls self2 → fields self1 = fields self2 →
  validate self1 = validate self2.
Proof. intros Hc Hf. by rewrite !validate_eq, Hc, Hf. Qed.

Lemma class_name_inj (c1 c2 : template_class) :
  class_name c1 = class_name c2 → c1 = c2.
Proof. by destruct c1, c2. Qed.

(** X9.  An export identifies the class and carries the whole store: a
    fresh instance of the class named by [template_type], bulk-set with the
    exported [fields], has the same store as the exported template, passes
    or fails validation with the same list, renders the same note and
    exports the same class name and fields. *)
Theorem export_restores `{PyRuntime} (self : template) (c : template_class)
    (now0 now1 now : datetime) :
  let d := export_to_dict self in
  let self' := set_multiple_fields (__init__ c now0 now1) (x_fields d) now in
  class_name c = x_template_type d →
  cls self' = cls self
  ∧ fields self' = fields self
  ∧ validate self' = validate self
  ∧ (∀ now', format_note self' now' = format_note self now')
  ∧ x_template_type (export_to_dict self') = x_template_type d
  ∧ x_fields (export_to_dict self') = x_fields d.
Proof.
  intros d self' Hname. apply class_name_inj in Hname as ->.
  assert (Hf : fields self' = fields self).
  { simpl. by rewrite (right_id ∅ (∪)). }
  split; [done |]. split; [done |]. split; [by apply validate_ext |].
  split; [intros now'; by apply format_note_ext |]. simpl.
  split; [done |]. by rewrite (right_id ∅ (∪)).
Qed.

Lemma export_restores_witness :
  let self :=
    sample EpicHandoffTemplate
      [ ("patient_name", VStr "Test Patient");
        ("active_issues", VList ["Pneumonia"; "Hypertension"]) ] in
  let self' :=
    @set_multiple_fields text_runtime
      (@__init__ text_runtime EpicHandoffTemplate
         "2025-11-01T09:00:00" "2025-11-01T09:00:00")
      (x_fields (@export_to_dict text_runtime self)) "2025-11-01T09:00:01" in
  @format_note text_runtime self' "2025-11-03T07:45:10"
  = @format_note text_runtime self "2025-11-03T07:45:10".
Proof.
  intros self self'.
  destruct (@export_restores text_runtime self EpicHandoffTemplate
              "2025-11-01T09:00:00" "2025-11-01T09:00:00"
              "2025-11-01T09:00:01" eq_refl) as (_ & _ & _ & Hn & _).
  apply Hn.
Defined.

(** ** Sessions *)

(** X10.  A session of calls never raises, keeps the class of the instance,
    and leaves as last-modified timestamp the time of the last call among
    [set_field], [set_multiple_fields] and [clear], or the timestamp the
    instance had when the session has no such call. *)
Theorem session_last_modified `{PyRuntime} (calls : list (call * datetime))
    (self : template) :
  ∃ self',
    exec_all calls self = Ok self'
    ∧ cls self' = cls self
    ∧ last_modified self' = last_mutation calls (last_modified self).
Proof.
  revert self. induction calls as [|[c now] rest IH]; intros self; simpl.
  - by exists self.
  - destruct (exec_ok c now self) as [[r self1] He]. rewrite He. simpl.
    destruct (exec_frame c now self self1 r He) as (Hc & _ & Hm).
    destruct (IH self1) as (self' & -> & Hc' & Hl).
    exists self'. split; [done |]. split; [congruence |].
    rewrite Hl. by destruct (mutating c); [rewrite Hm | subst].
Qed.

(** ** Section helpers *)

Lemma str_app_eq_nil (a b : string) : a +:+ b = "" → a = "" ∧ b = "".
Proof. destruct a; [done |]. by rewrite str_app_cons. Qed.

Lemma nl_not_empty : nl ≠ "".
Proof. done. Qed.

(** X11.  Each section helper returns the empty string exactly when the
    content is falsy, whatever the title and the indentation; so a section
    is either left out whole or comes with its title. *)
Theorem section_empty_iff_falsy `{PyRuntime} (title : string)
    (content : value) (indent : Z) :
  (_format_section title content indent = "" ↔ falsy content)
  ∧ (_format_list_section title content indent = "" ↔ falsy content)
  ∧ (¬ falsy content →
     contains (title +:+ ":" +:+ nl) (_format_section title content indent)
     ∧ contains (title +:+ ":" +:+ nl)
         (_format_list_section title content indent)).
Proof.
  rewrite <- truthy_false_iff.
  unfold _format_section, _format_list_section.
  destruct (truthy content); simpl.
  - split; [|split].
    + split; [|done]. intros He.
      repeat (apply str_app_eq_nil in He as [_ He]). by destruct nl_not_empty.
    + split; [|done]. intros He.
      repeat (apply str_app_eq_nil in He as [_ He]). by destruct nl_not_empty.
    + intros _. split.
      * eexists (str_mul " " indent), _. by rewrite !str_app_assoc.
      * eexists (str_mul " " indent), _. by rewrite !str_app_assoc.
  - split; [done |]. split; [done |]. by intros [].
Qed.

Lemma section_empty_iff_falsy_witness :
  contains ("ALLERGIES:" +:+ nl)
    (@_format_section text_runtime "ALLERGIES" (VStr "NKDA") 4).
Proof.
  destruct (@section_empty_iff_falsy text_runtime "ALLERGIES" (VStr "NKDA") 4)
    as (_ & _ & Hc).
  apply Hc. by intros [?|[?|?]].
Defined.

(** ** Declared and rendered fields *)

(** The names a class declares are pairwise distinct, and the tables of
    line fields, text sections and list sections name exactly them. *)
Lemma declared_names_distinct (c : template_class) :
  NoDup (declared_fields c)
  ∧ (∀ field, field ∈ get_required_fields c →
              field ∉ get_optional_fields c)
  ∧ (∀ field, field ∈ rendered_fields c ↔ field ∈ declared_fields c).
Proof.
  assert (Hnd : NoDup (declared_fields c)).
  { destruct c; refine (bool_decide_unpack _ _); vm_compute; exact I. }
  split; [done |]. split.
  - intros field Hr Ho. apply NoDup_app in Hnd as (_ & Hdisj & _).
    by apply (Hdisj field).
  - intros field. split; intros Hin.
    + assert (Hsub : rendered_fields c ⊆ declared_fields c); [|by apply Hsub].
      destruct c; refine (bool_decide_unpack _ _); vm_compute; exact I.
    + assert (Hsub : declared_fields c ⊆ rendered_fields c); [|by apply Hsub].
      destruct c; refine (bool_decide_unpack _ _); vm_compute; exact I.
Qed.

(** ** Rendering of the values in the store *)

Lemma format_section_truthy `{PyRuntime} (title : string) (v : value) :
  truthy v = true →
  _format_section title v 0 = section_of_text title (py_str v).
Proof. intros Ht. unfold _format_section. by rewrite Ht. Qed.

(** As [find_stmt], comparing the text before anything else is proved. *)
Ltac locate_stmt :=
  lazymatch goal with
  | |- contains _ (run (add _ :: _) _) =>
      first [ refine (contains_run_add _ _ _ _ _ (contains_refl _));
              solve_appends
            | apply contains_run_skip; locate_stmt ]
  | |- contains _ (run (when ?c ?s :: ?body) ?note) =>
      first [ change (run (when c s :: body) note) with (run (s :: body) note);
              locate_stmt
            | apply contains_run_skip; locate_stmt ]
  | |- contains _ (run (_ :: _) _) => apply contains_run_skip; locate_stmt
  end.

Ltac value_entry self v Hv Ht :=
  rewrite !(get_field_present self _ _ Hv);
  rewrite ?(format_section_truthy _ v Ht), ?Ht;
  locate_stmt.

Lemma consult_line `{PyRuntime} (self : template) (now : datetime)
    (field label : string) (v : value) :
  (field, label) ∈ line_fields ConsultNoteTemplate →
  fields self !! field = Some v → truthy v = true →
  contains (label +:+ ": " +:+ py_str v +:+ nl)
    (ConsultNoteTemplate.format_note self now).
Proof.
  intros Hin Hv Ht. unfold ConsultNoteTemplate.format_note.
  each_entry Hin ltac:(value_entry self v Hv Ht).
Qed.

Lemma handoff_line `{PyRuntime} (self : template) (now : datetime)
    (field label : string) (v : value) :
  (field, label) ∈ line_fields EpicHandoffTemplate →
  fields self !! field = Some v → truthy v = true →
  contains (label +:+ ": " +:+ py_str v +:+ nl)
    (EpicHandoffTemplate.format_note self now).
Proof.
  intros Hin Hv Ht. unfold EpicHandoffTemplate.format_note.
  each_entry Hin ltac:(value_entry self v Hv Ht).
Qed.

Lemma operative_line `{PyRuntime} (self : template) (now : datetime)
    (field label : string) (v : value) :
  (field, label) ∈ line_fields OperativeReportTemplate →
  fields self !! field = Some v → truthy v = true →
  contains (label +:+ ": " +:+ py_str v +:+ nl)
    (OperativeReportTemplate.format_note self now).
Proof.
  intros Hin Hv Ht. unfold OperativeReportTemplate.format_note.
  each_entry Hin ltac:(value_entry self v Hv Ht).
Qed.

Lemma consult_text `{PyRuntime} (self : template) (now : datetime)
    (field title : string) (v : value) :
  (field, title) ∈ text_sections ConsultNoteTemplate →
  fields self !! field = Some v → truthy v = true →
  contains (section_of_text title (py_str v))
    (ConsultNoteTemplate.format_note self now).
Proof.
  intros Hin Hv Ht. unfold ConsultNoteTemplate.format_note.
  each_entry Hin ltac:(value_entry self v Hv Ht).
Qed.

Lemma handoff_text `{PyRuntime} (self : template) (now : datetime)
    (field title : string) (v : value) :
  (field, title) ∈ text_sections EpicHandoffTemplate →
  fields self !! field = Some v → truthy v = true →
  contains (section_of_text title (py_str v))
    (EpicHandoffTemplate.format_note self now).
Proof.
  intros Hin Hv Ht. unfold EpicHandoffTemplate.format_note.
  each_entry Hin ltac:(value_entry self v Hv Ht).
Qed.

Lemma operative_text `{PyRuntime} (self : template) (now : datetime)
    (field title : string) (v : value) :
  (field, title) ∈ text_sections OperativeReportTemplate →
  fields self !! field = Some v → truthy v = true →
  contains (section_of_text title (py_str v))
    (OperativeReportTemplate.format_note self now).
Proof.
  intros Hin Hv Ht. unfold OperativeReportTemplate.format_note.
  each_entry Hin ltac:(value_entry self v Hv Ht).
Qed.

(** X13.  A field that is in the store with a truthy value is in the note
    at each of its places: on its labelled line as [label: value], or as
    its titled section with the value as body; the value is shown as [str]
    gives it. *)
Theorem present_field_rendered `{PyRuntime} (self : template)
    (now : datetime) (field label : string) (v : value) :
  fields self !! field = Some v → truthy v = true →
  ((field, label) ∈ line_fields (cls self) →
   contains (label +:+ ": " +:+ py_str v +:+ nl) (format_note self now))
  ∧ ((field, label) ∈ text_sections (cls self) →
     contains (label +:+ ":" +:+ nl +:+ py_str v +:+ nl +:+ nl)
       (format_note self now)).
Proof.
  intros Hv Ht. unfold format_note. destruct (cls self); split; intros Hin.
  - by apply consult_line with field.
  - by apply consult_text with field.
  - by apply handoff_line with field.
  - by apply handoff_text with field.
  - by apply operative_line with field.
  - by apply operative_text with field.
Qed.

Lemma present_field_rendered_witness :
  let self :=
    sample OperativeReportTemplate
      [ ("attending_surgeon", VStr "Dr. Lee");
        ("complications", VStr "None") ] in
  let note := @format_note text_runtime self sample_time in
  contains ("Attending: Dr. Lee" +:+ nl) note
  ∧ contains ("COMPLICATIONS:" +:+ nl +:+ "None" +:+ nl +:+ nl) note.
Proof.
  intros self note. split.
  - destruct (@present_field_rendered text_runtime self sample_time
                "attending_surgeon" "Attending" (VStr "Dr. Lee"))
      as [Hline _]; [reflexivity | reflexivity |].
    apply Hline. refine (bool_decide_unpack _ _). vm_compute. exact I.
  - destruct (@present_field_rendered text_runtime self sample_time
                "complications" "COMPLICATIONS" (VStr "None"))
      as [_ Htext]; [reflexivity | reflexivity |].
    apply Htext. refine (bool_decide_unpack _ _). vm_compute. exact I.
Defined.

Ltac not_member Hreq :=
  exfalso; revert Hreq; refine (bool_decide_unpack (¬ _) _);
  vm_compute; exact I.

Ltac required_line_entry self Hv Hreq :=
  first [ rewrite !(get_field_present self _ _ Hv); locate_stmt
        | not_member Hreq ].

Lemma consult_required_line `{PyRuntime} (self : template) (now : datetime)
    (field label : string) (v : value) :
  (field, label) ∈ line_fields ConsultNoteTemplate →
  field ∈ ConsultNoteTemplate.get_required_fields →
  fields self !! field = Some v →
  contains (label +:+ ": " +:+ py_str v +:+ nl)
    (ConsultNoteTemplate.format_note self now).
Proof.
  intros Hin Hreq Hv. unfold ConsultNoteTemplate.format_note.
  each_entry Hin ltac:(required_line_entry self Hv Hreq).
Qed.

Lemma handoff_required_line `{PyRuntime} (self : template) (now : datetime)
    (field label : string) (v : value) :
  (field, label) ∈ line_fields EpicHandoffTemplate →
  field ∈ EpicHandoffTemplate.get_required_fields →
  fields self !! field = Some v →
  contains (label +:+ ": " +:+ py_str v +:+ nl)
    (EpicHandoffTemplate.format_note self now).
Proof.
  intros Hin Hreq Hv. unfold EpicHandoffTemplate.format_note.
  each_entry Hin ltac:(required_line_entry self Hv Hreq).
Qed.

Lemma operative_required_line `{PyRuntime} (self : template) (now : datetime)
    (field label : string) (v : value) :
  (field, label) ∈ line_fields OperativeReportTemplate →
  field ∈ OperativeReportTemplate.get_required_fields →
  fields self !! field = Some v →
  contains (label +:+ ": " +:+ py_str v +:+ nl)
    (OperativeReportTemplate.format_note self now).
Proof.
  intros Hin Hreq Hv. unfold OperativeReportTemplate.format_note.
  each_entry Hin ltac:(required_line_entry self Hv Hreq).
Qed.

(** X14.  A required field shown on a labelled line is shown with the
    value the store has for it, whatever that value is: an empty string
    gives the bare label, and [None] gives the text [None]. *)
Theorem required_line_shows_stored_value `{PyRuntime} (self : template)
    (now : datetime) (field label : string) (v : value) :
  (field, label) ∈ line_fields (cls self) →
  field ∈ get_required_fields (cls self) →
  fields self !! field = Some v →
  contains (label +:+ ": " +:+ py_str v +:+ nl) (format_note self now)
  ∧ (v = VStr "" → contains (label +:+ ": " +:+ nl) (format_note self now))
  ∧ (v = VNone →
     contains (label +:+ ": None" +:+ nl) (format_note self now)).
Proof.
  intros Hin Hreq Hv.
  assert (Hc : contains (label +:+ ": " +:+ py_str v +:+ nl)
                 (format_note self now)).
  { unfold format_note. unfold get_required_fields in Hreq.
    destruct (cls self).
    - by apply consult_required_line with field.
    - by apply handoff_required_line with field.
    - by apply operative_required_line with field. }
  split; [done |]. split; intros ->; exact Hc.
Qed.

Lemma required_line_shows_stored_value_witness :
  let self := sample EpicHandoffTemplate [("patient_location", VStr "")] in
  contains ("Location: " +:+ nl) (@format_note text_runtime self sample_time).
Proof.
  intros self.
  destruct (@required_line_shows_stored_value text_runtime self sample_time
              "patient_location" "Location" (VStr "")) as (_ & He & _).
  - refine (bool_decide_unpack _ _). vm_compute. exact I.
  - refine (bool_decide_unpack _ _). vm_compute. exact I.
  - reflexivity.
  - by apply He.
Defined.

(** ** What a note depends on *)

Lemma run_ext (body1 body2 : list stmt) :
  Forall2 (λ s1 s2 : stmt, ∀ note, s1 note = s2 note) body1 body2 →
  ∀ note, run body1 note = run body2 note.
Proof.
  induction 1 as [|s1 s2 body1 body2 Hs _ IH]; intros note; [done |].
  by rewrite !run_cons, Hs, IH.
Qed.

Ltac falsy_to_truthy Ha :=
  first [ apply truthy_false_iff in Ha | clear Ha ].

(** One statement of two renderings of the same class, on stores that are
    the same for rendering. *)
Ltac same_stmt self1 self2 Hsame :=
  intros ?;
  lazymatch goal with
  | |- context [get_field self1 ?g _] =>
      let Hd := fresh "Hd" in
      lazymatch type of Hsame with
      | same_for_rendering ?c _ _ =>
          assert (g ∈ declared_fields c) as Hd
            by (refine (bool_decide_unpack _ _); vm_compute; exact I)
      end;
      let Hg := fresh "Hg" in
      let Hopt := fresh "Hopt" in
      let Ha1 := fresh "Ha" in
      let Ha2 := fresh "Ha" in
      destruct (Hsame g Hd) as [Hg | (Hopt & Ha1 & Ha2)];
      [ unfold get_field; rewrite Hg; reflexivity
      | first
          [ unfold get_field; unfold absent_or_falsy in Ha1, Ha2;
            destruct (fields self1 !! g), (fields self2 !! g);
            falsy_to_truthy Ha1; falsy_to_truthy Ha2;
            unfold when; cbv beta iota; rewrite ?Ha1, ?Ha2; reflexivity
          | exfalso; revert Hopt; refine (bool_decide_unpack (¬ _) _);
            vm_compute; exact I ] ]
  | |- _ => reflexivity
  end.

Ltac same_block self1 self2 Hsame :=
  apply run_ext;
  repeat (apply Forall2_cons_2; [ same_stmt self1 self2 Hsame |]);
  apply Forall2_nil_2.

Lemma format_note_same `{PyRuntime} (self1 self2 : template)
    (now : datetime) :
  cls self1 = cls self2 →
  same_for_rendering (cls self1) (fields self1) (fields self2) →
  format_note self1 now = format_note self2 now.
Proof.
  intros Hc Hsame. unfold format_note. rewrite <- Hc.
  destruct (cls self1) eqn:Hcls;
    [ unfold ConsultNoteTemplate.format_note
    | unfold EpicHandoffTemplate.format_note
    | unfold OperativeReportTemplate.format_note ];
    same_block self1 self2 Hsame.
Qed.

(** X15.  The note of a template depends on its class, on the declared
    fields of its store and on the rendered time only, and on an optional
    field only as far as it is truthy: two templates of one class whose
    stores agree on every declared field, up to optional fields that are
    absent or falsy in both, render the same note. *)
Theorem format_note_same_for_rendering `{PyRuntime} (self1 self2 : template)
    (now : datetime) :
  cls self1 = cls self2 →
  same_for_rendering (cls self1) (fields self1) (fields self2) →
  format_note self1 now = format_note self2 now.
Proof. apply format_note_same. Qed.

Lemma format_note_same_for_rendering_witness :
  let self1 :=
    sample ConsultNoteTemplate
      [("patient_name", VStr "John Doe"); ("allergies", VStr "")] in
  let self2 :=
    sample ConsultNoteTemplate
      [("nickname", VStr "JD"); ("patient_name", VStr "John Doe")] in
  @format_note text_runtime self1 sample_time
  = @format_note text_runtime self2 sample_time.
Proof.
  intros self1 self2.
  apply (@format_note_same_for_rendering text_runtime self1 self2
           sample_time); [reflexivity |].
  intros field Hin. vm_compute in Hin.
  repeat (apply elem_of_cons in Hin as [->|Hin];
          [ first [ left; reflexivity
                  | right; split; [|split];
                    refine (bool_decide_unpack _ _); vm_compute; exact I ] |]).
  by apply elem_of_nil in Hin.
Defined.

(** X16.  A field the class does not declare is never looked at: writing
    it, with any value, changes neither the note nor the result of
    validation. *)
Theorem undeclared_field_ignored `{PyRuntime} (self : template)
    (field_name : string) (v : value) (now now' : datetime) :
  field_name ∉ declared_fields (cls self) →
  format_note (set_field self field_name v now) now' = format_note self now'
  ∧ validate (set_field self field_name v now) = validate self.
Proof.
  intros Hnot. split.
  - apply format_note_same; [done |].
    intros g Hg. left. simpl. apply lookup_insert_ne. by intros ->.
  - rewrite !validate_eq. simpl.
    assert (Hext : filter (absent_or_falsy (<[field_name:=v]> (fields self)))
                     (get_required_fields (cls self))
                   = filter (absent_or_falsy (fields self))
                       (get_required_fields (cls self))); [|by rewrite Hext].
    apply filter_ext_in. intros g Hg. unfold absent_or_falsy.
    rewrite lookup_insert_ne; [done |].
    intros ->. apply Hnot. unfold declared_fields.
    apply elem_of_app. by left.
Qed.

Lemma undeclared_field_ignored_witness :
  let self := sample EpicHandoffTemplate [("patient_name", VStr "Jane Smith")] in
  @format_note text_runtime
    (@set_field text_runtime self "nickname" (VStr "JS") sample_time)
    sample_time
  = @format_note text_runtime self sample_time.
Proof.
  intros self.
  destruct (@undeclared_field_ignored text_runtime self "nickname"
              (VStr "JS") sample_time sample_time) as [Hn _]; [|exact Hn].
  refine (bool_decide_unpack (¬ _) _). vm_compute. exact I.
Defined.

(** X17.  An optional field that is falsy is as good as absent: writing a
    falsy value to an optional field that was absent or falsy leaves the
    note as it was, with no title or label left behind for it. *)
Theorem falsy_optional_omitted `{PyRuntime} (self : template)
    (field_name : string) (v : value) (now now' : datetime) :
  field_name ∈ get_optional_fields (cls self) →
  falsy v →
  absent_or_falsy (fields self) field_name →
  format_note (set_field self field_name v now) now' = format_note self now'.
Proof.
  intros Hopt Hv Hs. apply format_note_same; [done |].
  intros g Hg. simpl. destruct (decide (field_name = g)) as [<-|Hne].
  - right. split; [done |]. split; [|done].
    unfold absent_or_falsy. by rewrite lookup_insert_eq.
  - left. by apply lookup_insert_ne.
Qed.

Lemma falsy_optional_omitted_witness :
  let self := sample ConsultNoteTemplate [("patient_name", VStr "John Doe")] in
  @format_note text_runtime
    (@set_field text_runtime self "medications" (VList []) sample_time)
    sample_time
  = @format_note text_runtime self sample_time.
Proof.
  intros self.
  apply (@falsy_optional_omitted text_runtime self "medications" (VList [])
           sample_time sample_time).
  - refine (bool_decide_unpack _ _). vm_compute. exact I.
  - right. by right.
  - exact I.
Defined.

(** ** The places of a note *)

Lemma render_places_app `{PyRuntime} (flds : gmap string value)
    (stamp : string) (places1 places2 : list place) :
  render_places flds stamp (places1 ++ places2)
  = render_places flds stamp places1 +:+ render_places flds stamp places2.
Proof.
  induction places1 as [|p places1 IH]; [done |].
  cbn [app]. unfold render_places in *. cbn [foldr].
  by rewrite IH, str_app_assoc.
Qed.

Lemma run_places `{PyRuntime} (flds : gmap string value) (stamp : string)
    (body : list stmt) (places : list place) :
  Forall2 (λ (s : stmt) p, ∀ note, s note = note +:+ shown flds stamp p)
    body places →
  ∀ note, run body note = note +:+ render_places flds stamp places.
Proof.
  induction 1 as [|s p body places Hs _ IH]; intros note.
  - unfold render_places. simpl. by rewrite str_app_nil_r.
  - rewrite run_cons, IH, Hs, str_app_assoc. done.
Qed.

Lemma run_places_assign `{PyRuntime} (flds : gmap string value)
    (stamp e : string) (body : list stmt) (places : list place) :
  Forall2 (λ (s : stmt) p, ∀ note, s note = note +:+ shown flds stamp p)
    body places →
  run (assign e :: body) "" = render_places flds stamp (Fixed e :: places).
Proof. intros Hb. rewrite run_cons. apply (run_places _ _ _ _ Hb). Qed.

(** One statement of a renderer against the place it fills. *)
Ltac place_stmt self :=
  intros ?;
  unfold shown, shown_value, shown_absent, get_field, add, when, if_else,
    _format_section, _format_list_section;
  try lazymatch goal with
      | |- context [fields self !! ?f] =>
          destruct (fields self !! f) as [[|?|?]|]
      end;
  cbn [truthy isinstance_list negb orb py_iter];
  repeat lazymatch goal with
         | |- context [bool_decide ?P] => destruct (bool_decide P)
         end;
  cbn [negb orb];
  first [ reflexivity | by rewrite str_app_nil_r ].

Ltac place_block self :=
  apply run_places_assign;
  repeat (apply Forall2_cons_2; [ place_stmt self |]);
  apply Forall2_nil_2.

Lemma consult_layout `{PyRuntime} (self : template) (now : datetime) :
  ConsultNoteTemplate.format_note self now
  = render_places (fields self) (strftime now) (layout ConsultNoteTemplate).
Proof.
  unfold ConsultNoteTemplate.format_note, layout, header_places, body_places,
    footer_places.
  cbn [app]. place_block self.
Qed.

Lemma handoff_layout `{PyRuntime} (self : template) (now : datetime) :
  EpicHandoffTemplate.format_note self now
  = render_places (fields self) (strftime now) (layout EpicHandoffTemplate).
Proof.
  unfold EpicHandoffTemplate.format_note, layout, header_places, body_places,
    footer_places.
  cbn [app]. place_block self.
Qed.

Lemma operative_layout `{PyRuntime} (self : template) (now : datetime) :
  OperativeReportTemplate.format_note self now
  = render_places (fields self) (strftime now)
      (layout OperativeReportTemplate).
Proof.
  unfold OperativeReportTemplate.format_note, layout, header_places,
    body_places, footer_places.
  cbn [app]. place_block self.
Qed.

Lemma format_note_layout `{PyRuntime} (self : template) (now : datetime) :
  format_note self now
  = render_places (fields self) (strftime now) (header_places (cls self))
    +:+ render_places (fields self) (strftime now) (body_places (cls self))
    +:+ render_places (fields self) (strftime now) (footer_places (cls self)).
Proof.
  rewrite <- !render_places_app. unfold format_note.
  destruct (cls self);
    [ apply consult_layout | apply handoff_layout | apply operative_layout ].
Qed.

Lemma contains_shown `{PyRuntime} (flds : gmap string value)
    (stamp : string) (p : place) (places : list place) :
  p ∈ places → contains (shown flds stamp p) (render_places flds stamp places).
Proof.
  induction places as [|q places IH]; intros Hin.
  - by apply elem_of_nil in Hin.
  - unfold render_places in *. cbn [foldr].
    apply elem_of_cons in Hin as [->|Hin].
    + apply contains_app_l, contains_refl.
    + by apply contains_app_r, IH.
Qed.

Lemma placed_fields_spec (places : list place) (field : string) :
  field ∈ placed_fields places
  ↔ ∃ p, p ∈ places ∧ place_field p = Some field.
Proof. apply list_elem_of_omap. Qed.

Lemma placed_fields_declared (c : template_class) (field : string) :
  field ∈ placed_fields (layout c) ↔ field ∈ declared_fields c.
Proof.
  split; intros Hin.
  - assert (Hsub : placed_fields (layout c) ⊆ declared_fields c);
      [|by apply Hsub].
    destruct c; refine (bool_decide_unpack _ _); vm_compute; exact I.
  - assert (Hsub : declared_fields c ⊆ placed_fields (layout c));
      [|by apply Hsub].
    destruct c; refine (bool_decide_unpack _ _); vm_compute; exact I.
Qed.

(** In every layout the required places are the places of the required
    fields. *)
Ltac required_place :=
  intros ? [= <-]; cbn [place_required];
  split; intros Hreq;
  first [ reflexivity
        | discriminate Hreq
        | refine (bool_decide_unpack _ _); vm_compute; exact I
        | exfalso; revert Hreq; refine (bool_decide_unpack (¬ _) _);
          vm_compute; exact I ].

Lemma layout_required (c : template_class) (p : place) (field : string) :
  p ∈ layout c → place_field p = Some field →
  (place_required p = true ↔ field ∈ get_required_fields c).
Proof.
  intros Hin. revert field.
  assert (Hall : Forall (λ p, ∀ field, place_field p = Some field →
                   (place_required p = true
                    ↔ field ∈ get_required_fields c)) (layout c));
    [|by apply (proj1 (Forall_forall _ _) Hall)].
  destruct c; unfold layout, header_places, body_places, footer_places;
    cbn [app];
    repeat (apply Forall_cons_2; [ first [ by intros ? [=] | required_place ] |]);
    apply Forall_nil_2.
Qed.

Lemma required_has_place (c : template_class) (field : string) :
  field ∈ get_required_fields c →
  ∃ p, p ∈ layout c ∧ place_field p = Some field ∧ place_required p = true.
Proof.
  intros Hreq.
  assert (Hd : field ∈ placed_fields (layout c)).
  { apply placed_fields_declared, elem_of_app. by left. }
  apply placed_fields_spec in Hd as (p & Hin & Hp).
  exists p. split; [done |]. split; [done |].
  by apply (layout_required c p field).
Qed.

Lemma shown_absent_marked (p : place) (field : string) :
  place_field p = Some field → place_required p = true →
  contains "[NOT PROVIDED]" (shown_absent p).
Proof.
  destruct p as [|?|[] ? label|[] ? title|[] ? title]; try done; intros _ _.
  - apply placeholder_line_marked.
  - apply placeholder_section_marked.
  - apply placeholder_section_marked.
Qed.

Lemma shown_falsy `{PyRuntime} (p : place) (v : value) :
  place_required p = true → falsy v →
  shown_value p v
  = match p with
    | Line _ _ label => label +:+ ": " +:+ py_str v +:+ nl
    | _ => ""
    end.
Proof.
  intros Hreq Hf. apply truthy_false_iff in Hf.
  destruct p as [|?|r ? label|r ? title|r ? title]; simpl in *; try done.
  - by rewrite Hreq.
  - by rewrite Hf.
  - by rewrite Hf.
Qed.

Lemma render_places_timeless `{PyRuntime} (flds : gmap string value)
    (stamp stamp' : string) (places : list place) :
  Forall (λ p, ∀ label, p ≠ Time label) places →
  render_places flds stamp' places = render_places flds stamp places.
Proof.
  induction 1 as [|p places Hp _ IH]; [done |].
  unfold render_places in *. cbn [foldr]. rewrite IH. f_equal.
  destruct p; try done. by destruct (Hp label).
Qed.

Ltac no_time :=
  repeat (apply Forall_cons_2; [ by intros ? |]); apply Forall_nil_2.

Lemma render_places_cons `{PyRuntime} (flds : gmap string value)
    (stamp : string) (p : place) (places : list place) :
  render_places flds stamp (p :: places)
  = shown flds stamp p +:+ render_places flds stamp places.
Proof. done. Qed.

Lemma render_places_nil `{PyRuntime} (flds : gmap string value)
    (stamp : string) :
  render_places flds stamp [] = "".
Proof. done. Qed.

Lemma header_starts_with_banner `{PyRuntime} (flds : gmap string value)
    (stamp : string) (c : template_class) :
  starts_with (header_banner c) (render_places flds stamp (header_places c)).
Proof.
  destruct c; unfold header_places, header_banner;
    rewrite 3!render_places_cons; cbn [shown banner_title];
    eexists; rewrite !str_app_assoc; reflexivity.
Qed.

(** C2, as the code has it.  The note is exactly the text of its places,
    one after the other, and every required field has its places among
    them.  At a place of a required field the note has the placeholder when
    the field is absent from the store; when the field is in the store the
    place is filled from the stored value and from nothing else: a falsy
    value gives the labelled line with that value, the bare label for the
    empty string, and leaves a section out, and the placeholder is not
    shown. *)
Theorem required_field_placeholder_or_value `{PyRuntime} (self : template)
    (now : datetime) :
  let flds := fields self in
  let stamp := strftime now in
  let c := cls self in
  format_note self now = render_places flds stamp (layout c)
  ∧ (∀ field, field ∈ get_required_fields c →
       ∃ p, p ∈ layout c ∧ place_field p = Some field)
  ∧ (∀ p field,
       p ∈ layout c → place_field p = Some field →
       field ∈ get_required_fields c →
       contains (shown flds stamp p) (format_note self now)
       ∧ (flds !! field = None →
          shown flds stamp p = shown_absent p
          ∧ contains "[NOT PROVIDED]" (shown_absent p))
       ∧ (∀ v, flds !! field = Some v →
            shown flds stamp p = shown_value p v
            ∧ (falsy v →
               shown flds stamp p
               = match p with
                 | Line _ _ label => label +:+ ": " +:+ py_str v +:+ nl
                 | _ => ""
                 end)))
  ∧ (∀ field,
       field ∈ get_required_fields c → flds !! field = None →
       ∃ text, (field, text) ∈ placeholders c
               ∧ contains "[NOT PROVIDED]" text
               ∧ contains text (format_note self now)).
Proof.
  intros flds stamp c.
  assert (Hnote : format_note self now = render_places flds stamp (layout c)).
  { rewrite format_note_layout. unfold layout.
    by rewrite !render_places_app. }
  split; [done |]. split; [|split].
  - intros field Hreq.
    destruct (required_has_place c field Hreq) as (p & Hin & Hp & _).
    by exists p.
  - intros p field Hin Hp Hreq.
    assert (Hr : place_required p = true)
      by by apply (layout_required c p field).
    split; [rewrite Hnote; by apply contains_shown |]. split.
    + intros Habs. split; [|by apply (shown_absent_marked p field)].
      destruct p; simpl in Hp; try done; injection Hp as ->;
        unfold shown; fold flds; by rewrite Habs.
    + intros v Hv.
      assert (Hs : shown flds stamp p = shown_value p v).
      { destruct p; simpl in Hp; try done; injection Hp as ->;
          unfold shown; by rewrite Hv. }
      split; [done |]. intros Hf. rewrite Hs. by apply shown_falsy.
  - intros field Hreq Habs. by apply absent_required_placeholder.
Qed.

Ltac member := refine (bool_decide_unpack _ _); vm_compute; exact I.

Lemma required_field_placeholder_or_value_witness :
  let self :=
    sample ConsultNoteTemplate
      [("patient_name", VStr ""); ("assessment", VStr "")] in
  let flds := fields self in
  let stamp := @strftime text_runtime sample_time in
  @shown text_runtime flds stamp (Line true "patient_name" "Name")
  = "Name: " +:+ nl
  ∧ @shown text_runtime flds stamp (Section true "assessment" "ASSESSMENT")
    = ""
  ∧ @shown text_runtime flds stamp
      (Section true "reason_for_consult" "REASON FOR CONSULT")
    = placeholder_section "REASON FOR CONSULT".
Proof.
  intros self flds stamp.
  destruct (@required_field_placeholder_or_value text_runtime self
              sample_time) as (_ & _ & Hplace & _).
  split; [|split].
  - destruct (Hplace (Line true "patient_name" "Name") "patient_name")
      as (_ & _ & Hv); [member | done | member |].
    destruct (Hv (VStr "") eq_refl) as [_ Hf]. apply Hf. right. by left.
  - destruct (Hplace (Section true "assessment" "ASSESSMENT") "assessment")
      as (_ & _ & Hv); [member | done | member |].
    destruct (Hv (VStr "") eq_refl) as [_ Hf]. apply Hf. right. by left.
  - destruct (Hplace (Section true "reason_for_consult" "REASON FOR CONSULT")
                "reason_for_consult")
      as (_ & Ha & _); [member | done | member |].
    by apply Ha.
Defined.

Lemma consult_footer `{PyRuntime} (flds : gmap string value) (stamp : string) :
  render_places flds stamp (footer_places ConsultNoteTemplate)
  = (nl +:+ str_mul "-" 80 +:+ nl)
    +:+ shown flds stamp
          (Line false "consulting_physician" "Consulting Physician")
    +:+ shown flds stamp
          (Line false "attending_physician" "Attending Physician")
    +:+ "Date: " +:+ stamp +:+ nl.
Proof.
  unfold footer_places. rewrite 4!render_places_cons, render_places_nil.
  cbn [shown]. by rewrite str_app_nil_r, !str_app_assoc.
Qed.

Lemma operative_footer `{PyRuntime} (flds : gmap string value)
    (stamp : string) :
  render_places flds stamp (footer_places OperativeReportTemplate)
  = (nl +:+ str_mul "-" 80 +:+ nl)
    +:+ shown flds stamp (Line true "surgeon" "Surgeon")
    +:+ shown flds stamp (Line false "attending_surgeon" "Attending")
    +:+ "Date: " +:+ stamp +:+ nl.
Proof.
  unfold footer_places. rewrite 4!render_places_cons, render_places_nil.
  cbn [shown]. by rewrite str_app_nil_r, !str_app_assoc.
Qed.

Lemma handoff_footer `{PyRuntime} (flds : gmap string value)
    (stamp : string) :
  render_places flds stamp (footer_places EpicHandoffTemplate)
  = str_mul "=" 80 +:+ nl.
Proof.
  unfold footer_places. rewrite render_places_cons, render_places_nil.
  cbn [shown]. by rewrite str_app_nil_r.
Qed.

(** The header of a handoff note, around its line with the time of
    rendering. *)
Lemma handoff_header `{PyRuntime} (flds : gmap string value)
    (stamp : string) :
  ∃ before after,
    header_places EpicHandoffTemplate
    = before ++ Time "Handoff Date/Time: " :: after
    ∧ Forall (λ p, ∀ label, p ≠ Time label) (before ++ after)
    ∧ render_places flds stamp (header_places EpicHandoffTemplate)
      = render_places flds stamp before
        +:+ ("Handoff Date/Time: " +:+ stamp +:+ nl)
        +:+ render_places flds stamp after.
Proof.
  exists (take 11 (header_places EpicHandoffTemplate)),
         (drop 12 (header_places EpicHandoffTemplate)).
  split; [done |]. split; [cbn; no_time |].
  change (header_places EpicHandoffTemplate)
    with (take 11 (header_places EpicHandoffTemplate)
          ++ Time "Handoff Date/Time: "
             :: drop 12 (header_places EpicHandoffTemplate)) at 1.
  by rewrite render_places_app, render_places_cons.
Qed.

(** C3, as the code has it.  Every note is its header, then its body, then
    its footer, and the header opens with the banner of the class.  The
    body is the sections of the class and never shows the time of
    rendering.  The footer of a consult note and of an operative report is
    a signature block and nothing else: the dashed rule, the signers'
    lines, and last the line with the time of rendering, which occurs
    nowhere before.  The footer of a handoff note is the rule of [=] and
    nothing else, so there is no signature block; the time of rendering is
    on the [Handoff Date/Time] line of the header and nowhere else. *)
Theorem note_header_body_footer `{PyRuntime} (self : template)
    (now : datetime) :
  let flds := fields self in
  let stamp := strftime now in
  let header := render_places flds stamp (header_places (cls self)) in
  let body := render_places flds stamp (body_places (cls self)) in
  let footer := render_places flds stamp (footer_places (cls self)) in
  format_note self now = header +:+ body +:+ footer
  ∧ starts_with (header_banner (cls self)) header
  ∧ (∀ stamp', render_places flds stamp' (body_places (cls self)) = body)
  ∧ match cls self with
    | ConsultNoteTemplate =>
        (∀ stamp',
           render_places flds stamp' (header_places ConsultNoteTemplate)
           = header)
        ∧ footer
          = (nl +:+ str_mul "-" 80 +:+ nl)
            +:+ shown flds stamp
                  (Line false "consulting_physician" "Consulting Physician")
            +:+ shown flds stamp
                  (Line false "attending_physician" "Attending Physician")
            +:+ "Date: " +:+ stamp +:+ nl
        ∧ signature_footer stamp (format_note self now)
    | OperativeReportTemplate =>
        (∀ stamp',
           render_places flds stamp' (header_places OperativeReportTemplate)
           = header)
        ∧ footer
          = (nl +:+ str_mul "-" 80 +:+ nl)
            +:+ shown flds stamp (Line true "surgeon" "Surgeon")
            +:+ shown flds stamp (Line false "attending_surgeon" "Attending")
            +:+ "Date: " +:+ stamp +:+ nl
        ∧ signature_footer stamp (format_note self now)
    | EpicHandoffTemplate =>
        footer = str_mul "=" 80 +:+ nl
        ∧ (∃ before after,
             header_places EpicHandoffTemplate
             = before ++ Time "Handoff Date/Time: " :: after
             ∧ Forall (λ p, ∀ label, p ≠ Time label) (before ++ after)
             ∧ header
               = render_places flds stamp before
                 +:+ ("Handoff Date/Time: " +:+ stamp +:+ nl)
                 +:+ render_places flds stamp after)
        ∧ ends_with (str_mul "=" 80 +:+ nl) (format_note self now)
        ∧ contains ("Handoff Date/Time: " +:+ stamp +:+ nl)
            (format_note self now)
    end.
Proof.
  intros flds stamp header body footer.
  split; [apply format_note_layout |].
  split; [apply header_starts_with_banner |].
  split.
  { intros stamp'. apply render_places_timeless.
    destruct (cls self); unfold body_places; no_time. }
  pose proof (banner_and_closing self now) as [_ Hclose].
  unfold header, body, footer. destruct (cls self).
  - split; [|split; [apply consult_footer | exact Hclose]].
    intros stamp'. apply render_places_timeless.
    unfold header_places; no_time.
  - split; [apply handoff_footer |]. split; [apply handoff_header |].
    exact Hclose.
  - split; [|split; [apply operative_footer | exact Hclose]].
    intros stamp'. apply render_places_timeless.
    unfold header_places; no_time.
Qed.

(** X12.  In every class the declared names are pairwise distinct, so no
    name is both required and optional; the note is exactly the text of the
    places of the class, and the fields that have a place are exactly the
    declared ones. *)
Theorem declared_fields_placed `{PyRuntime} (self : template)
    (now : datetime) :
  let c := cls self in
  NoDup (declared_fields c)
  ∧ (∀ field, field ∈ get_required_fields c →
              field ∉ get_optional_fields c)
  ∧ format_note self now
    = render_places (fields self) (strftime now) (layout c)
  ∧ (∀ field,
       (∃ p, p ∈ layout c ∧ place_field p = Some field)
       ↔ field ∈ declared_fields c)
  ∧ (∀ field, field ∈ rendered_fields c ↔ field ∈ declared_fields c).
Proof.
  intros c.
  destruct (declared_names_distinct c) as (Hnd & Hdisj & Hrend).
  split; [done |]. split; [done |]. split.
  { rewrite format_note_layout. unfold layout.
    by rewrite !render_places_app. }
  split; [|done].
  intros field. rewrite <- placed_fields_spec. apply placed_fields_declared.
Qed.
